(** * Mediator: a two-party escrow contract (src/mediator.py)

    The SmartPy contract [Mediator] is embedded as a pure transition
    function.  An entry point is a computation over a frame made of the
    contract storage ([self.data]) and the list of operations emitted so far
    ([sp.send]); [sp.verify] aborts the computation with its message, and
    [sp.send] aborts it when the destination offers no unit entry point.  A
    second layer, [invoke], accounts for the tez held by the contract: the
    amount attached to a call is credited when the call succeeds and the
    emitted transfers are debited. *)

From Stdlib Require Import NArith ZArith String List Lia.
Import ListNotations.

Open Scope string_scope.
Open Scope N_scope.

(** ** Data model *)

(** [sp.TAddress] values are opaque and only ever compared. *)
Definition address : Type := string.

(** [sp.TMutez].  Prices are [sp.TNat] and amounts are counted in the same
    unit; [sp.utils.nat_to_mutez] is the unit conversion between the two.
    The ledger's own cap on representable amounts is not part of the
    contract and is not modelled. *)
Definition mutez : Type := N.

Definition nat_to_mutez (n : N) : mutez := n.

Module DEFAULTS.
Definition default_seller : address := "tz1YtuZ4vhzzn7ssCt93Put8U9UJDdvCXci4".
Definition default_buyer : address := "tz1YtuZ4vhzzn7ssCt93Put8U9UJDdvCXci4".
End DEFAULTS.

(** [sp.record(item_id = ..., price = ...)] *)
Record product_t : Type := mk_product {
  item_id : N;
  price : N
}.

(** The storage declared by [Mediator.__init__]. *)
Record storage : Type := mk_storage {
  product : product_t;
  seller : address;
  buyer : address;
  seller_is_set : bool;
  buyer_is_set : bool
}.

(** [Mediator.__init__] *)
Definition init : storage :=
  {| product := {| item_id := 0; price := 0 |};
     seller := DEFAULTS.default_seller;
     buyer := DEFAULTS.default_buyer;
     seller_is_set := false;
     buyer_is_set := false |}.

(** What a call sees of its environment: [sp.sender], [sp.amount], and the
    addresses at which the chain finds an entry point of type unit, that is,
    those for which [sp.contract(sp.TUnit, a)] is [Some]: every implicit
    account, and the originated contracts that offer such an entry point. *)
Record context : Type := mk_context {
  sender : address;
  amount : mutez;
  unit_entry_point : address -> bool
}.

(** The only operation the contract emits is the transfer of [sp.send]. *)
Inductive operation : Type :=
| Transfer (destination : address) (value : mutez).

(** ** The entry-point monad *)

Inductive result (A : Type) : Type :=
| Ok (a : A)
| Failed (message : string).
Arguments Ok {A} a.
Arguments Failed {A} message.

Record frame : Type := mk_frame {
  data : storage;
  operations : list operation
}.

Definition sp (A : Type) : Type := frame -> result (A * frame).

Definition ret {A : Type} (a : A) : sp A := fun f => Ok (a, f).

Definition bind {A B : Type} (m : sp A) (k : A -> sp B) : sp B :=
  fun f =>
    match m f with
    | Ok (a, f') => k a f'
    | Failed msg => Failed msg
    end.

Declare Scope sp_scope.
Delimit Scope sp_scope with sp.
Notation "x <- m ;; k" := (bind m (fun x => k))
  (at level 61, m at next level, right associativity) : sp_scope.
Notation "m ;; k" := (bind m (fun _ => k))
  (at level 61, right associativity) : sp_scope.
Open Scope sp_scope.

(** Reading [self.data]. *)
Definition self_data : sp storage := fun f => Ok (data f, f).

(** An assignment to a field of [self.data]. *)
Definition assign (upd : storage -> storage) : sp unit :=
  fun f => Ok (tt, {| data := upd (data f); operations := operations f |}).

(** [sp.verify(cond, message = msg)] *)
Definition verify (cond : bool) (msg : string) : sp unit :=
  fun f => if cond then Ok (tt, f) else Failed msg.

(** [sp.contract(sp.TUnit, destination)]: the handle of the destination's
    unit entry point, if it has one. *)
Definition contract_unit (ctx : context) (destination : address)
  : option address :=
  if unit_entry_point ctx destination then Some destination else None.

(** The value [open_some()] fails with.  [sp.send] passes it no message, so
    the failure carries none of the contract's own messages; the model
    names it after the operation. *)
Definition open_some_failed : string := "open_some".

(** [o.open_some()] *)
Definition open_some {A : Type} (o : option A) : sp A :=
  fun f =>
    match o with
    | Some a => Ok (a, f)
    | None => Failed open_some_failed
    end.

(** [sp.transfer(sp.unit, value, handle)]: operations are emitted in program
    order. *)
Definition transfer (value : mutez) (handle : address) : sp unit :=
  fun f =>
    Ok (tt, {| data := data f;
               operations := operations f ++ [Transfer handle value] |}).

(** [sp.send(destination, value)], that is,
    [sp.transfer(sp.unit, value,
                 sp.contract(sp.TUnit, destination).open_some())]. *)
Definition send (ctx : context) (destination : address) (value : mutez)
  : sp unit :=
  handle <- open_some (contract_unit ctx destination) ;;
  transfer value handle.

(** Field updates. *)
Definition set_product (p : product_t) (d : storage) : storage :=
  {| product := p; seller := seller d; buyer := buyer d;
     seller_is_set := seller_is_set d; buyer_is_set := buyer_is_set d |}.

Definition set_product_item_id (v : N) (d : storage) : storage :=
  set_product {| item_id := v; price := price (product d) |} d.

Definition set_product_price (v : N) (d : storage) : storage :=
  set_product {| item_id := item_id (product d); price := v |} d.

Definition set_seller (a : address) (d : storage) : storage :=
  {| product := product d; seller := a; buyer := buyer d;
     seller_is_set := seller_is_set d; buyer_is_set := buyer_is_set d |}.

Definition set_buyer (a : address) (d : storage) : storage :=
  {| product := product d; seller := seller d; buyer := a;
     seller_is_set := seller_is_set d; buyer_is_set := buyer_is_set d |}.

Definition set_seller_is_set (b : bool) (d : storage) : storage :=
  {| product := product d; seller := seller d; buyer := buyer d;
     seller_is_set := b; buyer_is_set := buyer_is_set d |}.

Definition set_buyer_is_set (b : bool) (d : storage) : storage :=
  {| product := product d; seller := seller d; buyer := buyer d;
     seller_is_set := seller_is_set d; buyer_is_set := b |}.

(** ** The contract *)

Module Mediator.

(** [reset_contract(self)] *)
Definition reset_contract : sp unit :=
  assign (set_product {| item_id := 0; price := 0 |}) ;;
  assign (set_buyer_is_set false) ;;
  assign (set_seller_is_set false).

(** [sell(self, params)] with [params = (item_id, price)] *)
Definition sell (params_item_id params_price : N) (ctx : context) : sp unit :=
  d <- self_data ;;
  verify (negb (seller_is_set d)) "Contract already in use." ;;
  verify (amount ctx =? nat_to_mutez (2 * params_price))
         "Stake should be two times the product price." ;;
  assign (set_product_item_id params_item_id) ;;
  assign (set_product_price params_price) ;;
  assign (set_seller (sender ctx)) ;;
  assign (set_seller_is_set true).

(** [buy(self, params)] with [params = (item_id)] *)
Definition buy (params_item_id : N) (ctx : context) : sp unit :=
  d <- self_data ;;
  verify (seller_is_set d) "Product not yet set." ;;
  verify (negb (buyer_is_set d)) "Contract already in use." ;;
  verify (amount ctx =? nat_to_mutez (2 * price (product d)))
         "Stake should be two times the product price." ;;
  assign (set_buyer (sender ctx)) ;;
  assign (set_buyer_is_set true).

(** [received(self, params)] with [params = (item_id)] *)
Definition received (params_item_id : N) (ctx : context) : sp unit :=
  d <- self_data ;;
  verify (seller_is_set d) "Seller not yet set." ;;
  verify (buyer_is_set d) "Buyer not yet set." ;;
  verify (sender ctx =? buyer d)%string "You are not the buyer." ;;
  send ctx (sender ctx) (nat_to_mutez (price (product d))) ;;
  send ctx (seller d) (nat_to_mutez (3 * price (product d))) ;;
  reset_contract.

(** [unsell(self, params)] with [params = (item_id)] *)
Definition unsell (params_item_id : N) (ctx : context) : sp unit :=
  d <- self_data ;;
  verify (seller_is_set d) "Seller not yet set." ;;
  verify (buyer_is_set d) "Buyer not yet set." ;;
  verify (sender ctx =? seller d)%string "You are not the seller." ;;
  send ctx (sender ctx) (nat_to_mutez (2 * price (product d))) ;;
  send ctx (buyer d) (nat_to_mutez (2 * price (product d))) ;;
  reset_contract.

End Mediator.

(** ** Calls *)

(** The four entry points with their parameters. *)
Inductive call : Type :=
| Sell (item_id price : N)
| Buy (item_id : N)
| Received (item_id : N)
| Unsell (item_id : N).

Definition entry_point (c : call) : context -> sp unit :=
  match c with
  | Sell i p => Mediator.sell i p
  | Buy i => Mediator.buy i
  | Received i => Mediator.received i
  | Unsell i => Mediator.unsell i
  end.

(** Running an entry point on a storage: the new storage and the emitted
    operations, or the message of the failed [sp.verify]. *)
Definition exec (c : call) (ctx : context) (s : storage)
  : result (storage * list operation) :=
  match entry_point c ctx {| data := s; operations := [] |} with
  | Ok (_, f) => Ok (data f, operations f)
  | Failed msg => Failed msg
  end.

(** The storage a call leaves behind: a failed call changes nothing. *)
Definition storage_after (c : call) (ctx : context) (s : storage) : storage :=
  match exec c ctx s with
  | Ok (s', _) => s'
  | Failed _ => s
  end.

(** The operations a call emits: a failed call emits none. *)
Definition transfers_of (c : call) (ctx : context) (s : storage)
  : list operation :=
  match exec c ctx s with
  | Ok (_, ops) => ops
  | Failed _ => []
  end.

(** The error vocabulary of the design document, and the messages of the
    contract that belong to each kind. *)
Inductive error : Type :=
| AlreadyInUse
| ProductNotSet
| SellerNotSet
| BuyerNotSet
| InvalidStake
| Unauthorized.

Definition error_of_message (msg : string) : option error :=
  if (msg =? "Contract already in use.")%string then Some AlreadyInUse
  else if (msg =? "Product not yet set.")%string then Some ProductNotSet
  else if (msg =? "Seller not yet set.")%string then Some SellerNotSet
  else if (msg =? "Buyer not yet set.")%string then Some BuyerNotSet
  else if (msg =? "Stake should be two times the product price.")%string
       then Some InvalidStake
  else if (msg =? "You are not the buyer.")%string then Some Unauthorized
  else if (msg =? "You are not the seller.")%string then Some Unauthorized
  else None.

(** The states of the life cycle, read off the two flags. *)
Definition is_Empty (s : storage) : Prop :=
  product s = {| item_id := 0; price := 0 |} /\
  seller_is_set s = false /\ buyer_is_set s = false.

Definition is_FullyStaked (s : storage) : Prop :=
  seller_is_set s = true /\ buyer_is_set s = true.

(** The storage [reset_contract] produces. *)
Definition reset (s : storage) : storage :=
  {| product := {| item_id := 0; price := 0 |};
     seller := seller s; buyer := buyer s;
     seller_is_set := false; buyer_is_set := false |}.

(** ** The instance: storage and held balance *)

Record instance : Type := mk_instance {
  contract_data : storage;
  balance : mutez
}.

(** A freshly originated contract holds nothing. *)
Definition initial_instance : instance :=
  {| contract_data := init; balance := 0 |}.

Fixpoint total (ops : list operation) : mutez :=
  match ops with
  | [] => 0
  | Transfer _ v :: ops' => v + total ops'
  end.

(** One transaction: the attached amount is credited to the contract, the
    entry point runs, and the emitted transfers are paid out of the balance.
    The transaction is rejected as a whole when the entry point fails or the
    balance cannot cover the transfers. *)
Definition invoke (c : call) (ctx : context) (i : instance)
  : result (instance * list operation) :=
  match exec c ctx (contract_data i) with
  | Failed msg => Failed msg
  | Ok (s', ops) =>
      let held := balance i + amount ctx in
      if total ops <=? held
      then Ok ({| contract_data := s'; balance := held - total ops |}, ops)
      else Failed "balance_too_low"
  end.

(** The instance after a transaction; a rejected one leaves it as it was. *)
Definition step (c : call) (ctx : context) (i : instance) : instance :=
  match invoke c ctx i with
  | Ok (i', _) => i'
  | Failed _ => i
  end.

(** Instances reachable from origination through calls allowed by [P]. *)
Inductive reachable_by (P : call -> context -> Prop) : instance -> Prop :=
| reach_init : reachable_by P initial_instance
| reach_step c ctx i :
    reachable_by P i -> P c ctx -> reachable_by P (step c ctx i).

Definition reachable : instance -> Prop := reachable_by (fun _ _ => True).

(** Calls that attach nothing to the two resolving entry points. *)
Definition resolves_without_amount (c : call) (ctx : context) : Prop :=
  match c with
  | Received _ | Unsell _ => amount ctx = 0
  | Sell _ _ | Buy _ => True
  end.

(** The two state invariants of the data model. *)
Definition state_invariant (s : storage) : Prop :=
  (buyer_is_set s = true -> seller_is_set s = true) /\
  (seller_is_set s = false -> product s = {| item_id := 0; price := 0 |}).

(** The escrow the flags account for. *)
Definition escrow_matches_flags (i : instance) : Prop :=
  let s := contract_data i in
  (seller_is_set s = false -> buyer_is_set s = false -> balance i = 0) /\
  (seller_is_set s = true -> buyer_is_set s = false ->
     balance i = 2 * price (product s)) /\
  (seller_is_set s = true -> buyer_is_set s = true ->
     balance i = 4 * price (product s)).

(** Test accounts of the scenario in the source. *)
Definition alice : address := "tz1alice".
Definition bob : address := "tz1bob".

(** An originated contract. *)
Definition shop : address := "KT1shop".

(** A chain on which no originated contract offers a unit entry point: the
    lookup finds one exactly at the implicit accounts, whose addresses start
    with tz. *)
Definition implicit_only (a : address) : bool := String.prefix "tz" a.

(** A call on that chain, by [a] with [v] attached. *)
Definition plain_call (a : address) (v : mutez) : context :=
  {| sender := a; amount := v; unit_entry_point := implicit_only |}.

(** What a list of operations pays to one address. *)
Fixpoint paid_to (a : address) (ops : list operation) : mutez :=
  match ops with
  | [] => 0
  | Transfer d v :: ops' =>
      (if (d =? a)%string then v else 0) + paid_to a ops'
  end.

(** What a call takes from one address: the amount attached, if that
    address is the caller. *)
Definition attached_by (a : address) (ctx : context) : mutez :=
  if (sender ctx =? a)%string then amount ctx else 0.

(** ** Observing a sequence of calls *)

(** What a caller observes of one call: the emitted transfers, or the
    message of the failure. *)
Definition outcome_of (c : call) (ctx : context) (s : storage)
  : result (list operation) :=
  match exec c ctx s with
  | Ok (_, ops) => Ok ops
  | Failed msg => Failed msg
  end.

(** Running a sequence of calls: the outcome of each and the final storage. *)
Fixpoint run (tr : list (call * context)) (s : storage)
  : list (result (list operation)) * storage :=
  match tr with
  | [] => ([], s)
  | (c, ctx) :: tr' =>
      let (os, s') := run tr' (storage_after c ctx s) in
      (outcome_of c ctx s :: os, s')
  end.

(** Two storages that agree on everything the flags declare meaningful:
    the listing, the flags, and the identity of every occupied slot. *)
Definition same_cycle_state (s1 s2 : storage) : Prop :=
  product s1 = product s2 /\
  seller_is_set s1 = seller_is_set s2 /\
  buyer_is_set s1 = buyer_is_set s2 /\
  (seller_is_set s1 = true -> seller s1 = seller s2) /\
  (buyer_is_set s1 = true -> buyer s1 = buyer s2).

Definition resolving (c : call) : Prop :=
  match c with
  | Received _ | Unsell _ => True
  | Sell _ _ | Buy _ => False
  end.

(** The escrow the contract owes according to its flags. *)
Definition escrowed (s : storage) : mutez :=
  if seller_is_set s
  then if buyer_is_set s then 4 * price (product s) else 2 * price (product s)
  else 0.

(** ** The scenario of the source's test *)

(** Alice lists item 1 at 1000000 and stakes 2 tez. *)
Definition scenario_sold : instance :=
  step (Sell 1 1000000) (plain_call alice 2000000)
       initial_instance.

(** Bob stakes 2 tez to buy it. *)
Definition scenario_bought : instance :=
  step (Buy 1) (plain_call bob 2000000) scenario_sold.

(** (a) Bob confirms the delivery. *)
Definition scenario_received : instance :=
  step (Received 1) (plain_call bob 0) scenario_bought.

(** (b) Alice then tries to unsell. *)
Definition scenario_unsold : instance :=
  step (Unsell 1) (plain_call alice 0) scenario_received.

(** The same confirmation with 5 mutez attached to the call. *)
Definition scenario_received_with_tip : instance :=
  step (Received 1) (plain_call bob 5) scenario_bought.

(** A sale in which the seller is an originated contract: the contract
    lists item 1 at 10, Bob buys. *)
Definition scenario_shop_sells : instance :=
  step (Buy 1) (plain_call bob 20)
       (step (Sell 1 10) (plain_call shop 20) initial_instance).

(** A sale in which the buyer is an originated contract: Alice lists item 1
    at 10, the contract buys. *)
Definition scenario_shop_buys : instance :=
  step (Buy 1) (plain_call shop 20)
       (step (Sell 1 10) (plain_call alice 20) initial_instance).

(** What the instance holds beyond the escrow its flags account for. *)
Definition surplus (i : instance) : mutez :=
  balance i - escrowed (contract_data i).

(** Whether a call went through, as the [valid] argument of [.run] reads it. *)
Definition valid {A : Type} (r : result A) : bool :=
  match r with
  | Ok _ => true
  | Failed _ => false
  end.

(** [test()]: the four calls the scenario makes on a fresh contract. *)
Definition test : list (call * context) :=
  [ (Sell 1 1000000, plain_call alice 2000000);
    (Buy 1, plain_call bob 2000000);
    (Received 1, plain_call bob 0);
    (Unsell 1, plain_call alice 0) ].

(** The same four calls for any two accounts, item and price. *)
Definition test_with (u : address -> bool) (a b : address) (i p : N)
  : list (call * context) :=
  [ (Sell i p, {| sender := a; amount := 2 * p; unit_entry_point := u |});
    (Buy i, {| sender := b; amount := 2 * p; unit_entry_point := u |});
    (Received i, {| sender := b; amount := 0; unit_entry_point := u |});
    (Unsell i, {| sender := a; amount := 0; unit_entry_point := u |}) ].

(** ** The entry points in closed form *)

Lemma reset_contract_frame (f : frame) :
  Mediator.reset_contract f =
  Ok (tt, {| data := reset (data f); operations := operations f |}).
Proof. reflexivity. Qed.

Ltac by_cases_on_storage s :=
  destruct s as [[? ?] ? ? [|] [|]];
  cbv [exec entry_point Mediator.sell Mediator.buy Mediator.received
       Mediator.unsell Mediator.reset_contract bind self_data verify assign
       send open_some contract_unit transfer nat_to_mutez reset set_product
       set_product_item_id set_product_price set_seller set_buyer
       set_seller_is_set set_buyer_is_set data operations product seller
       buyer seller_is_set buyer_is_set price item_id negb app];
  try reflexivity.

Ltac open_step i :=
  let s := fresh "s" in
  let b := fresh "b" in
  destruct i as [s b];
  unfold step, invoke, escrowed, state_invariant, resolves_without_amount;
  cbn [contract_data balance].

Ltac split_ifs :=
  repeat match goal with
         | |- context [if N.eqb ?a ?b then _ else _] =>
             destruct (N.eqb_spec a b)
         | |- context [if N.leb ?a ?b then _ else _] =>
             destruct (N.leb_spec a b)
         | |- context [if String.eqb ?a ?b then _ else _] =>
             destruct (String.eqb_spec a b)
         | |- context [if unit_entry_point ?c ?a then _ else _] =>
             destruct (unit_entry_point c a) eqn:?
         end.

Lemma exec_sell (i p : N) (ctx : context) (s : storage) :
  exec (Sell i p) ctx s =
  if seller_is_set s then Failed "Contract already in use."
  else if amount ctx =? 2 * p
  then Ok ({| product := {| item_id := i; price := p |};
              seller := sender ctx; buyer := buyer s;
              seller_is_set := true; buyer_is_set := buyer_is_set s |}, [])
  else Failed "Stake should be two times the product price.".
Proof.
  by_cases_on_storage s; destruct (amount ctx =? 2 * p); reflexivity.
Qed.

Lemma exec_buy (i : N) (ctx : context) (s : storage) :
  exec (Buy i) ctx s =
  if seller_is_set s
  then if buyer_is_set s then Failed "Contract already in use."
       else if amount ctx =? 2 * price (product s)
       then Ok ({| product := product s; seller := seller s;
                   buyer := sender ctx;
                   seller_is_set := true; buyer_is_set := true |}, [])
       else Failed "Stake should be two times the product price."
  else Failed "Product not yet set.".
Proof.
  by_cases_on_storage s.
  split_ifs; reflexivity.
Qed.

Lemma exec_received (i : N) (ctx : context) (s : storage) :
  exec (Received i) ctx s =
  if seller_is_set s
  then if buyer_is_set s
       then if (sender ctx =? buyer s)%string
            then if unit_entry_point ctx (sender ctx)
                 then if unit_entry_point ctx (seller s)
                      then Ok (reset s,
                               [Transfer (sender ctx) (price (product s));
                                Transfer (seller s) (3 * price (product s))])
                      else Failed open_some_failed
                 else Failed open_some_failed
            else Failed "You are not the buyer."
       else Failed "Buyer not yet set."
  else Failed "Seller not yet set.".
Proof.
  by_cases_on_storage s.
  split_ifs; reflexivity.
Qed.

Lemma exec_unsell (i : N) (ctx : context) (s : storage) :
  exec (Unsell i) ctx s =
  if seller_is_set s
  then if buyer_is_set s
       then if (sender ctx =? seller s)%string
            then if unit_entry_point ctx (sender ctx)
                 then if unit_entry_point ctx (buyer s)
                      then Ok (reset s,
                               [Transfer (sender ctx) (2 * price (product s));
                                Transfer (buyer s) (2 * price (product s))])
                      else Failed open_some_failed
                 else Failed open_some_failed
            else Failed "You are not the seller."
       else Failed "Buyer not yet set."
  else Failed "Seller not yet set.".
Proof.
  by_cases_on_storage s.
  split_ifs; reflexivity.
Qed.

(** ** Transactions in closed form *)

Lemma step_failed (c : call) (ctx : context) (i : instance) (msg : string) :
  exec c ctx (contract_data i) = Failed msg ->
  invoke c ctx i = Failed msg /\ step c ctx i = i.
Proof.
  intros H. unfold step, invoke. rewrite H. split; reflexivity.
Qed.

Lemma step_data (c : call) (ctx : context) (i : instance) :
  contract_data (step c ctx i) = contract_data i \/
  contract_data (step c ctx i) = storage_after c ctx (contract_data i).
Proof.
  unfold step, invoke, storage_after.
  destruct (exec c ctx (contract_data i)) as [[s' ops]|msg];
    [|left; reflexivity].
  destruct (total ops <=? balance i + amount ctx); [right|left]; reflexivity.
Qed.

(** ** The state invariant *)

Lemma state_invariant_init : state_invariant init.
Proof. split; intros H; [discriminate H | reflexivity]. Qed.

Lemma storage_after_invariant (c : call) (ctx : context) (s : storage) :
  state_invariant s -> state_invariant (storage_after c ctx s).
Proof.
  intros [Hb Hs]. unfold storage_after.
  destruct c as [i p|i|i|i];
    [rewrite exec_sell | rewrite exec_buy | rewrite exec_received
    | rewrite exec_unsell];
    destruct (seller_is_set s) eqn:Es; destruct (buyer_is_set s) eqn:Eb;
    repeat match goal with
           | |- context [if ?b then _ else _] => destruct b
           end;
    try discriminate (Hb eq_refl);
    split; cbn; intros; try congruence; auto.
Qed.

Lemma step_invariant (c : call) (ctx : context) (i : instance) :
  state_invariant (contract_data i) ->
  state_invariant (contract_data (step c ctx i)).
Proof.
  intros H. destruct (step_data c ctx i) as [E|E]; rewrite E.
  - exact H.
  - apply storage_after_invariant, H.
Qed.

Lemma reachable_by_invariant (P : call -> context -> Prop) (i : instance) :
  reachable_by P i -> state_invariant (contract_data i).
Proof.
  induction 1 as [|c ctx i _ IH _].
  - exact state_invariant_init.
  - apply step_invariant, IH.
Qed.

(** ** The held balance *)

Lemma escrowed_matches (i : instance) :
  balance i = escrowed (contract_data i) -> escrow_matches_flags i.
Proof.
  unfold escrow_matches_flags, escrowed. intros H.
  repeat split; intros Hs Hb; rewrite Hs, ?Hb in H; exact H.
Qed.

Lemma step_exact_escrow (c : call) (ctx : context) (i : instance) :
  state_invariant (contract_data i) ->
  resolves_without_amount c ctx ->
  balance i = escrowed (contract_data i) ->
  balance (step c ctx i) = escrowed (contract_data (step c ctx i)).
Proof.
  open_step i. intros [Hb _] Hc Hbal.
  destruct c as [j p|j|j|j];
    [rewrite exec_sell | rewrite exec_buy | rewrite exec_received
    | rewrite exec_unsell];
    destruct (seller_is_set s) eqn:Es; destruct (buyer_is_set s) eqn:Eb;
    try discriminate (Hb eq_refl);
    split_ifs;
    cbn [contract_data balance seller_is_set buyer_is_set product price reset
         total];
    rewrite ?Es, ?Eb; try assumption; lia.
Qed.

Lemma step_covers_escrow (c : call) (ctx : context) (i : instance) :
  state_invariant (contract_data i) ->
  escrowed (contract_data i) <= balance i ->
  escrowed (contract_data (step c ctx i)) <= balance (step c ctx i).
Proof.
  open_step i. intros [Hb _] Hbal.
  destruct c as [j p|j|j|j];
    [rewrite exec_sell | rewrite exec_buy | rewrite exec_received
    | rewrite exec_unsell];
    destruct (seller_is_set s) eqn:Es; destruct (buyer_is_set s) eqn:Eb;
    try discriminate (Hb eq_refl);
    split_ifs;
    cbn [contract_data balance seller_is_set buyer_is_set product price reset
         total];
    rewrite ?Es, ?Eb; try assumption; lia.
Qed.

Lemma reachable_covers_escrow (i : instance) :
  reachable i -> escrowed (contract_data i) <= balance i.
Proof.
  intros H. assert (Hinv := reachable_by_invariant _ _ H).
  induction H as [|c ctx i Hr IH _].
  - cbn. lia.
  - apply step_covers_escrow.
    + exact (reachable_by_invariant _ _ Hr).
    + apply IH. exact (reachable_by_invariant _ _ Hr).
Qed.

(** In a reachable instance the balance always covers the payouts: a
    transaction is rejected only by a failed [sp.verify]. *)
Lemma reachable_never_short (c : call) (ctx : context) (i : instance) :
  reachable i -> invoke c ctx i <> Failed "balance_too_low".
Proof.
  intros Hr. assert (Hcov := reachable_covers_escrow i Hr).
  assert (Hinv := reachable_by_invariant _ _ Hr).
  revert Hinv Hcov. open_step i. intros [Hb _] Hbal.
  destruct c as [j p|j|j|j];
    [rewrite exec_sell | rewrite exec_buy | rewrite exec_received
    | rewrite exec_unsell];
    destruct (seller_is_set s) eqn:Es; destruct (buyer_is_set s) eqn:Eb;
    try discriminate (Hb eq_refl);
    split_ifs; try discriminate;
    cbn [total] in *; lia.
Qed.

Lemma reachable_exact_escrow (i : instance) :
  reachable_by resolves_without_amount i ->
  balance i = escrowed (contract_data i).
Proof.
  induction 1 as [|c ctx i Hr IH Hc].
  - reflexivity.
  - apply step_exact_escrow; [|exact Hc|exact IH].
    exact (reachable_by_invariant _ _ Hr).
Qed.

(** ** Cycles that start from equivalent storages *)

Lemma same_cycle_state_step (c : call) (ctx : context) (s1 s2 : storage) :
  same_cycle_state s1 s2 ->
  outcome_of c ctx s1 = outcome_of c ctx s2 /\
  same_cycle_state (storage_after c ctx s1) (storage_after c ctx s2).
Proof.
  destruct s1 as [p1 se1 bu1 ss1 bs1], s2 as [p2 se2 bu2 ss2 bs2].
  unfold same_cycle_state.
  cbn [product seller buyer seller_is_set buyer_is_set].
  intros (Hp & Hss & Hbs & Hse & Hbu). subst p2 ss2 bs2.
  unfold outcome_of, storage_after.
  destruct c as [j p|j|j|j];
    [rewrite !exec_sell | rewrite !exec_buy | rewrite !exec_received
    | rewrite !exec_unsell];
    cbn [product seller buyer seller_is_set buyer_is_set];
    destruct ss1; destruct bs1;
    try (rewrite <- (Hse eq_refl)); try (rewrite <- (Hbu eq_refl));
    split_ifs;
    cbn [product seller buyer seller_is_set buyer_is_set reset];
    repeat split; auto; intros; discriminate.
Qed.

Lemma same_cycle_state_run (tr : list (call * context)) :
  forall s1 s2 : storage,
    same_cycle_state s1 s2 ->
    fst (run tr s1) = fst (run tr s2) /\
    same_cycle_state (snd (run tr s1)) (snd (run tr s2)).
Proof.
  induction tr as [|[c ctx] tr IH]; intros s1 s2 H; cbn [run].
  - split; [reflexivity | exact H].
  - destruct (same_cycle_state_step c ctx s1 s2 H) as [Ho Hs].
    specialize (IH _ _ Hs).
    destruct (run tr (storage_after c ctx s1)) as [os1 t1].
    destruct (run tr (storage_after c ctx s2)) as [os2 t2].
    cbn [fst snd] in *. destruct IH as [IH1 IH2].
    split; [rewrite Ho, IH1; reflexivity | exact IH2].
Qed.

Lemma same_cycle_state_full (s1 s2 : storage) :
  same_cycle_state s1 s2 -> is_FullyStaked s1 -> s1 = s2.
Proof.
  destruct s1 as [p1 se1 bu1 ss1 bs1], s2 as [p2 se2 bu2 ss2 bs2].
  unfold same_cycle_state, is_FullyStaked.
  cbn [product seller buyer seller_is_set buyer_is_set].
  intros (Hp & Hss & Hbs & Hse & Hbu) [E1 E2].
  rewrite <- Hp, <- Hss, <- Hbs, <- (Hse E1), <- (Hbu E2). reflexivity.
Qed.

Lemma resolved_is_reset (c : call) (ctx : context) (s s' : storage)
      (ops : list operation) :
  resolving c -> exec c ctx s = Ok (s', ops) -> s' = reset s.
Proof.
  destruct c as [j p|j|j|j]; cbn [resolving]; intros Hc; try contradiction;
    [rewrite exec_received | rewrite exec_unsell];
    destruct (seller_is_set s); try discriminate;
    destruct (buyer_is_set s); try discriminate;
    split_ifs; try discriminate; intros H; inversion H; reflexivity.
Qed.

Lemma reset_is_Empty (s : storage) : is_Empty (reset s).
Proof. repeat split. Qed.

Lemma reset_same_cycle_state_init (s : storage) :
  same_cycle_state (reset s) init.
Proof. repeat split; cbn; intros H; discriminate H. Qed.

(** ** The scenario, evaluated *)

Example scenario_bought_eq :
  scenario_bought =
  {| contract_data := {| product := {| item_id := 1; price := 1000000 |};
                         seller := alice; buyer := bob;
                         seller_is_set := true; buyer_is_set := true |};
     balance := 4000000 |}.
Proof. reflexivity. Qed.

Example scenario_received_eq :
  invoke (Received 1) (plain_call bob 0) scenario_bought =
  Ok ({| contract_data := {| product := {| item_id := 0; price := 0 |};
                             seller := alice; buyer := bob;
                             seller_is_set := false; buyer_is_set := false |};
         balance := 0 |},
      [Transfer bob 1000000; Transfer alice 3000000]).
Proof. reflexivity. Qed.

Example scenario_unsold_eq :
  invoke (Unsell 1) (plain_call alice 0) scenario_received =
  Failed "Seller not yet set.".
Proof. reflexivity. Qed.

Example scenario_unsell_instead_eq :
  invoke (Unsell 1) (plain_call alice 0) scenario_bought =
  Ok ({| contract_data := {| product := {| item_id := 0; price := 0 |};
                             seller := alice; buyer := bob;
                             seller_is_set := false; buyer_is_set := false |};
         balance := 0 |},
      [Transfer alice 2000000; Transfer bob 2000000]).
Proof. reflexivity. Qed.

Example scenario_second_sell_eq :
  invoke (Sell 2 7) (plain_call bob 14) scenario_sold =
  Failed "Contract already in use.".
Proof. reflexivity. Qed.

(** ** Resolving a fully staked instance *)

(** C1, as stated, fails.  [sp.send] looks up a unit entry point at the
    destination and aborts when there is none: after a contract without one
    has sold and Bob has bought, [received] by Bob, the stored buyer, is
    rejected, pays nothing and resets nothing.  And the payouts are the
    whole balance only when the instance holds exactly [4 * price]: with 5
    mutez attached to the call, 5 mutez stay behind. *)
Lemma received_pays_out_counterexample :
  reachable scenario_shop_sells /\
  seller_is_set (contract_data scenario_shop_sells) = true /\
  buyer_is_set (contract_data scenario_shop_sells) = true /\
  sender (plain_call bob 0) = buyer (contract_data scenario_shop_sells) /\
  exec (Received 1) (plain_call bob 0) (contract_data scenario_shop_sells)
    = Failed open_some_failed /\
  step (Received 1) (plain_call bob 0) scenario_shop_sells
    = scenario_shop_sells /\
  balance scenario_shop_sells = 40 /\
  balance (step (Received 1) (plain_call bob 5) scenario_bought) = 5.
Proof.
  split; [|repeat (split; [reflexivity|]); reflexivity].
  unfold scenario_shop_sells.
  repeat (apply reach_step; [|exact I]). apply reach_init.
Qed.

(** C1, amended.  In every storage where both flags are set, [received]
    called by the stored buyer, with a unit entry point found at the buyer
    and at the seller, emits exactly two transfers, [price] to the buyer and
    [3 * price] to the seller, [4 * price] in all, and leaves the storage
    reset to Empty.  An instance whose balance covers the payouts is debited
    by exactly [4 * price]; it is left empty exactly when what it held plus
    what was attached is [4 * price]. *)
Theorem received_pays_out_and_resets (id : N) (ctx : context) (s : storage) :
  seller_is_set s = true ->
  buyer_is_set s = true ->
  sender ctx = buyer s ->
  unit_entry_point ctx (buyer s) = true ->
  unit_entry_point ctx (seller s) = true ->
  exec (Received id) ctx s =
    Ok (reset s, [Transfer (buyer s) (price (product s));
                  Transfer (seller s) (3 * price (product s))]) /\
  total [Transfer (buyer s) (price (product s));
         Transfer (seller s) (3 * price (product s))]
    = 4 * price (product s) /\
  is_Empty (reset s) /\
  (forall b : mutez,
      4 * price (product s) <= b + amount ctx ->
      invoke (Received id) ctx {| contract_data := s; balance := b |} =
        Ok ({| contract_data := reset s;
               balance := b + amount ctx - 4 * price (product s) |},
            [Transfer (buyer s) (price (product s));
             Transfer (seller s) (3 * price (product s))]) /\
      (balance (step (Received id) ctx
                     {| contract_data := s; balance := b |}) = 0 <->
       b + amount ctx = 4 * price (product s))) /\
  (amount ctx = 0 ->
   step (Received id) ctx
        {| contract_data := s; balance := 4 * price (product s) |} =
     {| contract_data := reset s; balance := 0 |}).
Proof.
  intros Hs Hb Hc Ub Us.
  assert (E : exec (Received id) ctx s =
              Ok (reset s, [Transfer (buyer s) (price (product s));
                            Transfer (seller s) (3 * price (product s))])).
  { rewrite exec_received, Hs, Hb, Hc, String.eqb_refl, Ub, Us.
    reflexivity. }
  assert (T : total [Transfer (buyer s) (price (product s));
                     Transfer (seller s) (3 * price (product s))]
              = 4 * price (product s)).
  { cbn [total]. lia. }
  assert (V : forall b : mutez,
             4 * price (product s) <= b + amount ctx ->
             invoke (Received id) ctx {| contract_data := s; balance := b |} =
               Ok ({| contract_data := reset s;
                      balance := b + amount ctx - 4 * price (product s) |},
                   [Transfer (buyer s) (price (product s));
                    Transfer (seller s) (3 * price (product s))])).
  { intros b Hcov. unfold invoke. cbn [contract_data balance].
    rewrite E, T.
    destruct (N.leb_spec (4 * price (product s)) (b + amount ctx));
      [reflexivity | lia]. }
  refine (conj E (conj T (conj (reset_is_Empty s) (conj _ _)))).
  - intros b Hcov. split; [exact (V b Hcov)|].
    unfold step. rewrite (V b Hcov). cbn [balance]. lia.
  - intros H0. unfold step. rewrite V by lia. rewrite H0. f_equal. lia.
Qed.

Lemma received_pays_out_and_resets_witness :
  seller_is_set (contract_data scenario_bought) = true /\
  buyer_is_set (contract_data scenario_bought) = true /\
  sender (plain_call bob 0) = buyer (contract_data scenario_bought) /\
  unit_entry_point (plain_call bob 0)
                   (buyer (contract_data scenario_bought)) = true /\
  unit_entry_point (plain_call bob 0)
                   (seller (contract_data scenario_bought)) = true /\
  exec (Received 1) (plain_call bob 0) (contract_data scenario_bought) =
    Ok (reset (contract_data scenario_bought),
        [Transfer bob 1000000; Transfer alice 3000000]).
Proof.
  refine (conj eq_refl (conj eq_refl (conj eq_refl
            (conj eq_refl (conj eq_refl _))))).
  exact (proj1 (received_pays_out_and_resets
                  1 (plain_call bob 0) (contract_data scenario_bought)
                  eq_refl eq_refl eq_refl eq_refl eq_refl)).
Defined.

(** C2, as stated, fails.  After Alice has sold and a contract without a
    unit entry point has bought, [unsell] by Alice, the stored seller, is
    rejected inside [sp.send]: nothing is refunded and nothing is reset.
    And the seller's net is not zero when the [unsell] call carries an
    amount: with 5 mutez attached Alice is refunded her stake and is 5
    mutez short. *)
Lemma unsell_refunds_counterexample :
  reachable scenario_shop_buys /\
  seller_is_set (contract_data scenario_shop_buys) = true /\
  buyer_is_set (contract_data scenario_shop_buys) = true /\
  sender (plain_call alice 0) = seller (contract_data scenario_shop_buys) /\
  exec (Unsell 1) (plain_call alice 0) (contract_data scenario_shop_buys)
    = Failed open_some_failed /\
  step (Unsell 1) (plain_call alice 0) scenario_shop_buys
    = scenario_shop_buys /\
  (Z.of_N (paid_to alice
             (transfers_of (Unsell 1) (plain_call alice 5%N)
                           (contract_data scenario_bought)))
   - Z.of_N (attached_by alice (plain_call alice 2000000%N)
             + attached_by alice (plain_call bob 2000000%N)
             + attached_by alice (plain_call alice 5%N)) = -5)%Z.
Proof.
  split; [|repeat (split; [reflexivity|]); reflexivity].
  unfold scenario_shop_buys.
  repeat (apply reach_step; [|exact I]). apply reach_init.
Qed.

(** C2, amended.  In every storage where both flags are set, [unsell]
    called by the stored seller, with a unit entry point found at the seller
    and at the buyer, emits exactly two transfers of [2 * price], one to the
    seller and one to the buyer, and leaves the storage reset to Empty.  The
    seller's refund equals the stake [sell] accepts for that price, so over
    the stake, the refund and whatever is attached to the [unsell] call the
    seller's net is minus the attached amount: zero exactly when nothing is
    attached. *)
Theorem unsell_refunds_and_resets (id : N) (ctx : context) (s : storage) :
  seller_is_set s = true ->
  buyer_is_set s = true ->
  sender ctx = seller s ->
  unit_entry_point ctx (seller s) = true ->
  unit_entry_point ctx (buyer s) = true ->
  exec (Unsell id) ctx s =
    Ok (reset s, [Transfer (seller s) (2 * price (product s));
                  Transfer (buyer s) (2 * price (product s))]) /\
  is_Empty (reset s) /\
  (forall b : mutez,
      4 * price (product s) <= b + amount ctx ->
      invoke (Unsell id) ctx {| contract_data := s; balance := b |} =
        Ok ({| contract_data := reset s;
               balance := b + amount ctx - 4 * price (product s) |},
            [Transfer (seller s) (2 * price (product s));
             Transfer (buyer s) (2 * price (product s))])) /\
  (amount ctx = 0 ->
   step (Unsell id) ctx
        {| contract_data := s; balance := 4 * price (product s) |} =
     {| contract_data := reset s; balance := 0 |}) /\
  (forall (id0 : N) (ctx0 : context) (s0 : storage)
          (r : storage * list operation),
      exec (Sell id0 (price (product s))) ctx0 s0 = Ok r ->
      (Z.of_N (2 * price (product s)) - Z.of_N (amount ctx0)
       - Z.of_N (amount ctx) = - Z.of_N (amount ctx))%Z /\
      ((Z.of_N (2 * price (product s)) - Z.of_N (amount ctx0)
        - Z.of_N (amount ctx) = 0)%Z <-> amount ctx = 0)).
Proof.
  intros Hs Hb Hc Us Ub.
  assert (E : exec (Unsell id) ctx s =
              Ok (reset s, [Transfer (seller s) (2 * price (product s));
                            Transfer (buyer s) (2 * price (product s))])).
  { rewrite exec_unsell, Hs, Hb, Hc, String.eqb_refl, Us, Ub.
    reflexivity. }
  assert (V : forall b : mutez,
             4 * price (product s) <= b + amount ctx ->
             invoke (Unsell id) ctx {| contract_data := s; balance := b |} =
               Ok ({| contract_data := reset s;
                      balance := b + amount ctx - 4 * price (product s) |},
                   [Transfer (seller s) (2 * price (product s));
                    Transfer (buyer s) (2 * price (product s))])).
  { intros b Hcov. unfold invoke. cbn [contract_data balance].
    rewrite E. cbn [total].
    destruct (N.leb_spec (2 * price (product s) + (2 * price (product s) + 0))
                         (b + amount ctx)) as [_|Hlt]; [|lia].
    do 3 f_equal. lia. }
  refine (conj E (conj (reset_is_Empty s) (conj V (conj _ _)))).
  - intros H0. unfold step. rewrite V by lia. rewrite H0. f_equal. lia.
  - intros id0 ctx0 s0 r. rewrite exec_sell.
    destruct (seller_is_set s0); [discriminate|].
    destruct (N.eqb_spec (amount ctx0) (2 * price (product s))) as [Ea|];
      [|discriminate].
    intros _. rewrite Ea. split; lia.
Qed.

Lemma unsell_refunds_and_resets_witness :
  seller_is_set (contract_data scenario_bought) = true /\
  buyer_is_set (contract_data scenario_bought) = true /\
  sender (plain_call alice 0) = seller (contract_data scenario_bought) /\
  unit_entry_point (plain_call alice 0)
                   (seller (contract_data scenario_bought)) = true /\
  unit_entry_point (plain_call alice 0)
                   (buyer (contract_data scenario_bought)) = true /\
  exec (Unsell 1) (plain_call alice 0) (contract_data scenario_bought) =
    Ok (reset (contract_data scenario_bought),
        [Transfer alice 2000000; Transfer bob 2000000]).
Proof.
  refine (conj eq_refl (conj eq_refl (conj eq_refl
            (conj eq_refl (conj eq_refl _))))).
  exact (proj1 (unsell_refunds_and_resets
                  1 (plain_call alice 0) (contract_data scenario_bought)
                  eq_refl eq_refl eq_refl eq_refl eq_refl)).
Defined.

(** X12.  A whole cycle ended by [unsell] hands each party back exactly what
    that party attached to its own call. *)
Lemma unsell_cycle_returns_stakes
      (i b u p : N) (cs cb cu : context) (s0 s1 s2 s3 : storage)
      (o1 o2 o3 : list operation) :
  exec (Sell i p) cs s0 = Ok (s1, o1) ->
  exec (Buy b) cb s1 = Ok (s2, o2) ->
  exec (Unsell u) cu s2 = Ok (s3, o3) ->
  o1 = [] /\ o2 = [] /\
  o3 = [Transfer (sender cs) (amount cs); Transfer (sender cb) (amount cb)] /\
  sender cu = sender cs.
Proof.
  rewrite exec_sell.
  destruct (seller_is_set s0); [discriminate|].
  destruct (N.eqb_spec (amount cs) (2 * p)) as [Ea|]; [|discriminate].
  intros H1. inversion H1; subst s1 o1; clear H1.
  rewrite exec_buy. cbn [seller_is_set buyer_is_set product price].
  destruct (buyer_is_set s0); [discriminate|].
  destruct (N.eqb_spec (amount cb) (2 * p)) as [Eb|]; [|discriminate].
  intros H2. inversion H2; subst s2 o2; clear H2.
  rewrite exec_unsell.
  cbn [seller_is_set buyer_is_set product price seller buyer].
  destruct (String.eqb_spec (sender cu) (sender cs)) as [Eu|]; [|discriminate].
  destruct (unit_entry_point cu (sender cu)); [|discriminate].
  destruct (unit_entry_point cu (sender cb)); [|discriminate].
  intros H3. inversion H3; subst. rewrite Eu, Ea, Eb. repeat split.
Qed.

(** X16.  From origination, [sell] followed by [buy], each with the required
    stake, reaches the fully staked instance holding [4 * price]. *)
Lemma sell_then_buy_fully_staked
      (i j p : N) (a b : address) (u v : address -> bool) :
  step (Buy j) {| sender := b; amount := 2 * p; unit_entry_point := v |}
       (step (Sell i p)
             {| sender := a; amount := 2 * p; unit_entry_point := u |}
             initial_instance) =
  {| contract_data := {| product := {| item_id := i; price := p |};
                         seller := a; buyer := b;
                         seller_is_set := true; buyer_is_set := true |};
     balance := 4 * p |}.
Proof.
  unfold step at 2, invoke. rewrite exec_sell.
  cbn -[N.mul N.add N.sub N.leb N.eqb]. split_ifs; cbn [total] in *; try lia.
  unfold step, invoke. rewrite exec_buy.
  cbn -[N.mul N.add N.sub N.leb N.eqb]. split_ifs; cbn [total] in *; try lia.
  f_equal. lia.
Qed.

(** ** The two invariants of the data model *)

(** C4.  The two state invariants hold of the initial storage and are kept
    by every call of every entry point, whether it succeeds (the storage the
    call produces) or fails (the storage is left as it was). *)
Theorem state_invariant_initial_and_preserved :
  state_invariant init /\
  (forall (c : call) (ctx : context) (s : storage),
      state_invariant s ->
      state_invariant (storage_after c ctx s) /\
      match exec c ctx s with
      | Ok (s', _) => state_invariant s'
      | Failed _ => storage_after c ctx s = s
      end) /\
  (forall (c : call) (ctx : context) (i : instance),
      state_invariant (contract_data i) ->
      state_invariant (contract_data (step c ctx i))).
Proof.
  split; [exact state_invariant_init|]. split.
  - intros c ctx s H. split; [apply storage_after_invariant, H|].
    pose proof (storage_after_invariant c ctx s H) as H'.
    unfold storage_after in *.
    destruct (exec c ctx s) as [[s' ops]|msg]; [exact H' | reflexivity].
  - intros c ctx i. apply step_invariant.
Qed.

Lemma state_invariant_initial_and_preserved_witness :
  state_invariant init /\
  state_invariant
    (storage_after (Sell 1 1000000) (plain_call alice 2000000)
                   init).
Proof.
  split.
  - exact (proj1 state_invariant_initial_and_preserved).
  - exact (proj1 (proj1 (proj2 state_invariant_initial_and_preserved)
                    (Sell 1 1000000) (plain_call alice 2000000)
                    init (proj1 state_invariant_initial_and_preserved))).
Defined.

(** ** The escrow held by the instance *)

(** C3, as stated, fails: [received] and [unsell] accept an attached amount
    and do not pay it out, so a reachable instance can be Empty and still
    hold funds. *)
Lemma escrow_matches_flags_counterexample :
  reachable scenario_received_with_tip /\
  seller_is_set (contract_data scenario_received_with_tip) = false /\
  buyer_is_set (contract_data scenario_received_with_tip) = false /\
  balance scenario_received_with_tip = 5 /\
  ~ escrow_matches_flags scenario_received_with_tip.
Proof.
  split; [|repeat (split; [reflexivity|])].
  - unfold scenario_received_with_tip, scenario_bought, scenario_sold.
    repeat (apply reach_step; [|exact I]). apply reach_init.
  - intros [H _]. specialize (H eq_refl eq_refl). discriminate H.
Qed.

(** C3, amended.  In every instance reachable from origination through calls
    that attach nothing to [received] and [unsell], the balance is [0] when
    neither flag is set, [2 * price] when only the seller has staked, and
    [4 * price] when both have. *)
Theorem escrow_matches_flags_reachable (i : instance) :
  reachable_by resolves_without_amount i -> escrow_matches_flags i.
Proof.
  intros H. apply escrowed_matches, reachable_exact_escrow, H.
Qed.

Lemma escrow_matches_flags_reachable_witness :
  reachable_by resolves_without_amount scenario_received /\
  escrow_matches_flags scenario_received.
Proof.
  assert (R : reachable_by resolves_without_amount scenario_received).
  { unfold scenario_received, scenario_bought, scenario_sold.
    apply reach_step; [|reflexivity].
    repeat (apply reach_step; [|exact I]). apply reach_init. }
  split; [exact R | exact (escrow_matches_flags_reachable _ R)].
Defined.

(** ** Rejected calls *)

(** C5.  While no seller is set (in particular at Empty), [sell] with an
    attached amount other than [2 * price] fails with the stake message,
    classified InvalidStake; the instance, storage and balance, is left as
    it was (so an Empty instance stays Empty) and nothing is transferred. *)
Theorem sell_wrong_stake_rejected (id p : N) (ctx : context) (i : instance) :
  seller_is_set (contract_data i) = false ->
  amount ctx <> 2 * p ->
  exec (Sell id p) ctx (contract_data i) =
    Failed "Stake should be two times the product price." /\
  error_of_message "Stake should be two times the product price."
    = Some InvalidStake /\
  invoke (Sell id p) ctx i =
    Failed "Stake should be two times the product price." /\
  step (Sell id p) ctx i = i /\
  transfers_of (Sell id p) ctx (contract_data i) = [] /\
  (is_Empty (contract_data i) ->
   is_Empty (contract_data (step (Sell id p) ctx i))).
Proof.
  intros Hs Ha.
  assert (E : exec (Sell id p) ctx (contract_data i) =
              Failed "Stake should be two times the product price.").
  { rewrite exec_sell, Hs.
    destruct (N.eqb_spec (amount ctx) (2 * p)); [contradiction | reflexivity]. }
  destruct (step_failed _ _ _ _ E) as [Hi Hst].
  refine (conj E (conj eq_refl (conj Hi (conj Hst (conj _ _))))).
  - unfold transfers_of. rewrite E. reflexivity.
  - rewrite Hst. exact (fun H => H).
Qed.

Lemma sell_wrong_stake_rejected_witness :
  seller_is_set (contract_data initial_instance) = false /\
  amount (plain_call alice 1999999) <> 2 * 1000000 /\
  step (Sell 1 1000000) (plain_call alice 1999999)
       initial_instance = initial_instance.
Proof.
  assert (Ha : amount (plain_call alice 1999999) <> 2 * 1000000).
  { cbn. discriminate. }
  refine (conj eq_refl (conj Ha _)).
  exact (proj1 (proj2 (proj2 (proj2
           (sell_wrong_stake_rejected 1 1000000
              (plain_call alice 1999999) initial_instance
              eq_refl Ha))))).
Defined.

(** C7.  On a fully staked instance, [received] from anyone but the stored
    buyer fails with "You are not the buyer." and [unsell] from anyone but
    the stored seller fails with "You are not the seller.", both classified
    Unauthorized; the instance is left as it was and nothing is
    transferred. *)
Theorem resolving_calls_are_role_gated (id : N) (ctx : context) (i : instance) :
  is_FullyStaked (contract_data i) ->
  (sender ctx <> buyer (contract_data i) ->
   exec (Received id) ctx (contract_data i) = Failed "You are not the buyer." /\
   error_of_message "You are not the buyer." = Some Unauthorized /\
   invoke (Received id) ctx i = Failed "You are not the buyer." /\
   step (Received id) ctx i = i /\
   transfers_of (Received id) ctx (contract_data i) = []) /\
  (sender ctx <> seller (contract_data i) ->
   exec (Unsell id) ctx (contract_data i) = Failed "You are not the seller." /\
   error_of_message "You are not the seller." = Some Unauthorized /\
   invoke (Unsell id) ctx i = Failed "You are not the seller." /\
   step (Unsell id) ctx i = i /\
   transfers_of (Unsell id) ctx (contract_data i) = []).
Proof.
  intros [Hs Hb]. split; intros Hne.
  - assert (E : exec (Received id) ctx (contract_data i) =
                Failed "You are not the buyer.").
    { rewrite exec_received, Hs, Hb.
      destruct (String.eqb_spec (sender ctx) (buyer (contract_data i)));
        [contradiction | reflexivity]. }
    destruct (step_failed _ _ _ _ E) as [Hi Hst].
    repeat split; try assumption.
    unfold transfers_of. rewrite E. reflexivity.
  - assert (E : exec (Unsell id) ctx (contract_data i) =
                Failed "You are not the seller.").
    { rewrite exec_unsell, Hs, Hb.
      destruct (String.eqb_spec (sender ctx) (seller (contract_data i)));
        [contradiction | reflexivity]. }
    destruct (step_failed _ _ _ _ E) as [Hi Hst].
    repeat split; try assumption.
    unfold transfers_of. rewrite E. reflexivity.
Qed.

Lemma resolving_calls_are_role_gated_witness :
  is_FullyStaked (contract_data scenario_bought) /\
  sender (plain_call alice 0)
    <> buyer (contract_data scenario_bought) /\
  sender (plain_call bob 0)
    <> seller (contract_data scenario_bought) /\
  step (Received 1) (plain_call alice 0) scenario_bought
    = scenario_bought /\
  step (Unsell 1) (plain_call bob 0) scenario_bought
    = scenario_bought.
Proof.
  assert (F : is_FullyStaked (contract_data scenario_bought)).
  { split; reflexivity. }
  assert (Na : sender (plain_call alice 0)
               <> buyer (contract_data scenario_bought)).
  { cbn. discriminate. }
  assert (Nb : sender (plain_call bob 0)
               <> seller (contract_data scenario_bought)).
  { cbn. discriminate. }
  refine (conj F (conj Na (conj Nb (conj _ _)))).
  - exact (proj1 (proj2 (proj2 (proj2
             (proj1 (resolving_calls_are_role_gated 1
                       (plain_call alice 0) scenario_bought F)
                    Na))))).
  - exact (proj1 (proj2 (proj2 (proj2
             (proj2 (resolving_calls_are_role_gated 1
                       (plain_call bob 0) scenario_bought F)
                    Nb))))).
Defined.

(** C8.  While no seller is set, [buy] fails with "Product not yet set.",
    classified ProductNotSet, whatever its argument, caller and attached
    amount; the instance is left as it was and nothing is transferred. *)
Theorem buy_before_sell_rejected (id : N) (ctx : context) (i : instance) :
  seller_is_set (contract_data i) = false ->
  exec (Buy id) ctx (contract_data i) = Failed "Product not yet set." /\
  error_of_message "Product not yet set." = Some ProductNotSet /\
  invoke (Buy id) ctx i = Failed "Product not yet set." /\
  step (Buy id) ctx i = i /\
  transfers_of (Buy id) ctx (contract_data i) = [].
Proof.
  intros Hs.
  assert (E : exec (Buy id) ctx (contract_data i) =
              Failed "Product not yet set.").
  { rewrite exec_buy, Hs. reflexivity. }
  destruct (step_failed _ _ _ _ E) as [Hi Hst].
  repeat split; try assumption.
  unfold transfers_of. rewrite E. reflexivity.
Qed.

Lemma buy_before_sell_rejected_witness :
  seller_is_set (contract_data initial_instance) = false /\
  invoke (Buy 1) (plain_call bob 2000000) initial_instance
    = Failed "Product not yet set.".
Proof.
  refine (conj eq_refl _).
  exact (proj1 (proj2 (proj2
           (buy_before_sell_rejected 1 (plain_call bob 2000000)
              initial_instance eq_refl)))).
Defined.

(** ** Starting over after a resolving call *)

(** C6.  A successful [received] or [unsell] leaves the storage Empty
    (listing [{0,0}], both flags unset), and any sequence of calls run from
    that storage produces, call by call, the outcomes it produces from the
    initial storage; the storages reached agree on the listing, the flags
    and every occupied slot, and are equal once both slots are occupied. *)
Theorem resolved_instance_starts_over
        (c : call) (ctx : context) (s s' : storage) (ops : list operation) :
  resolving c ->
  exec c ctx s = Ok (s', ops) ->
  is_Empty s' /\
  (forall tr : list (call * context),
      fst (run tr s') = fst (run tr init) /\
      same_cycle_state (snd (run tr s')) (snd (run tr init)) /\
      (is_FullyStaked (snd (run tr s')) ->
       snd (run tr s') = snd (run tr init))).
Proof.
  intros Hc He. rewrite (resolved_is_reset _ _ _ _ _ Hc He).
  split; [apply reset_is_Empty|]. intros tr.
  destruct (same_cycle_state_run tr _ _ (reset_same_cycle_state_init s))
    as [Ho Hs].
  split; [exact Ho|]. split; [exact Hs|].
  apply same_cycle_state_full, Hs.
Qed.

Lemma resolved_instance_starts_over_witness :
  resolving (Received 1) /\
  exec (Received 1) (plain_call bob 0)
       (contract_data scenario_bought) =
    Ok (contract_data scenario_received,
        [Transfer bob 1000000; Transfer alice 3000000]) /\
  is_Empty (contract_data scenario_received).
Proof.
  refine (conj I (conj eq_refl _)).
  exact (proj1 (resolved_instance_starts_over
                  (Received 1) (plain_call bob 0)
                  (contract_data scenario_bought)
                  (contract_data scenario_received)
                  [Transfer bob 1000000; Transfer alice 3000000]
                  I eq_refl)).
Defined.

(** ** The [item_id] argument *)

(** C9.  [buy], [received] and [unsell] give the same result, on the storage
    and on the instance, whatever [item_id] they are passed; nor does their
    outcome depend on the [item_id] stored in the listing. *)
Theorem item_id_argument_is_ignored
        (id1 id2 : N) (ctx : context) (i : instance) :
  (exec (Buy id1) ctx (contract_data i)
     = exec (Buy id2) ctx (contract_data i) /\
   exec (Received id1) ctx (contract_data i)
     = exec (Received id2) ctx (contract_data i) /\
   exec (Unsell id1) ctx (contract_data i)
     = exec (Unsell id2) ctx (contract_data i)) /\
  (invoke (Buy id1) ctx i = invoke (Buy id2) ctx i /\
   invoke (Received id1) ctx i = invoke (Received id2) ctx i /\
   invoke (Unsell id1) ctx i = invoke (Unsell id2) ctx i) /\
  (forall j : N,
      outcome_of (Buy id1) ctx (set_product_item_id j (contract_data i))
        = outcome_of (Buy id1) ctx (contract_data i) /\
      outcome_of (Received id1) ctx (set_product_item_id j (contract_data i))
        = outcome_of (Received id1) ctx (contract_data i) /\
      outcome_of (Unsell id1) ctx (set_product_item_id j (contract_data i))
        = outcome_of (Unsell id1) ctx (contract_data i)).
Proof.
  assert (Eb : exec (Buy id1) ctx (contract_data i)
               = exec (Buy id2) ctx (contract_data i)).
  { rewrite !exec_buy. reflexivity. }
  assert (Er : exec (Received id1) ctx (contract_data i)
               = exec (Received id2) ctx (contract_data i)).
  { rewrite !exec_received. reflexivity. }
  assert (Eu : exec (Unsell id1) ctx (contract_data i)
               = exec (Unsell id2) ctx (contract_data i)).
  { rewrite !exec_unsell. reflexivity. }
  split; [auto|]. split.
  - unfold invoke. rewrite Eb, Er, Eu. auto.
  - intros j. unfold outcome_of.
    rewrite !exec_buy, !exec_received, !exec_unsell.
    destruct (contract_data i) as [[k p] se bu [|] [|]];
      cbn [set_product_item_id set_product product seller buyer seller_is_set
           buyer_is_set price item_id];
      split_ifs; auto.
Qed.

(** ** What the reset leaves behind *)

(** C10.  [reset_contract] rewrites the listing and the two flags and
    leaves [seller] and [buyer] (and the emitted operations) untouched, so
    after a successful [received] or [unsell] the two identity fields are
    those of the storage before the call; after the scenario they are Alice
    and Bob, not the placeholders.  The two placeholders are one and the
    same address. *)
Theorem reset_keeps_identities :
  (forall f : frame,
      Mediator.reset_contract f =
        Ok (tt, {| data := {| product := {| item_id := 0; price := 0 |};
                              seller := seller (data f);
                              buyer := buyer (data f);
                              seller_is_set := false;
                              buyer_is_set := false |};
                   operations := operations f |})) /\
  (forall (c : call) (ctx : context) (s s' : storage) (ops : list operation),
      resolving c ->
      exec c ctx s = Ok (s', ops) ->
      seller s' = seller s /\ buyer s' = buyer s) /\
  (seller (contract_data scenario_received) = alice /\
   buyer (contract_data scenario_received) = bob /\
   alice <> DEFAULTS.default_seller /\
   bob <> DEFAULTS.default_buyer) /\
  DEFAULTS.default_seller = DEFAULTS.default_buyer.
Proof.
  split; [intros f; reflexivity|]. split.
  - intros c ctx s s' ops Hc He.
    rewrite (resolved_is_reset _ _ _ _ _ Hc He). split; reflexivity.
  - split; [|reflexivity].
    repeat split; discriminate.
Qed.

Lemma reset_keeps_identities_witness :
  resolving (Unsell 1) /\
  exec (Unsell 1) (plain_call alice 0)
       (contract_data scenario_bought) =
    Ok (reset (contract_data scenario_bought),
        [Transfer alice 2000000; Transfer bob 2000000]) /\
  seller (reset (contract_data scenario_bought)) = alice /\
  buyer (reset (contract_data scenario_bought)) = bob.
Proof.
  refine (conj I (conj eq_refl _)).
  exact (proj1 (proj2 reset_keeps_identities)
           (Unsell 1) (plain_call alice 0)
           (contract_data scenario_bought)
           (reset (contract_data scenario_bought))
           [Transfer alice 2000000; Transfer bob 2000000] I eq_refl).
Defined.

(** ** Listing and buying *)

(** X1.  [sell] goes through exactly when no seller is set and the attached
    amount is twice the price; it then stores the listing, the caller as
    seller and the seller flag, leaves the buyer slot as it was, emits
    nothing, and the instance keeps the stake. *)
Theorem sell_succeeds_iff
        (i p : N) (ctx : context) (s s' : storage) (ops : list operation) :
  (exec (Sell i p) ctx s = Ok (s', ops) <->
   seller_is_set s = false /\
   amount ctx = 2 * p /\
   s' = {| product := {| item_id := i; price := p |};
           seller := sender ctx; buyer := buyer s;
           seller_is_set := true; buyer_is_set := buyer_is_set s |} /\
   ops = []) /\
  (exec (Sell i p) ctx s = Ok (s', ops) ->
   forall b : mutez,
     invoke (Sell i p) ctx {| contract_data := s; balance := b |} =
       Ok ({| contract_data := s'; balance := b + 2 * p |}, [])).
Proof.
  assert (Iff : exec (Sell i p) ctx s = Ok (s', ops) <->
                seller_is_set s = false /\
                amount ctx = 2 * p /\
                s' = {| product := {| item_id := i; price := p |};
                        seller := sender ctx; buyer := buyer s;
                        seller_is_set := true;
                        buyer_is_set := buyer_is_set s |} /\
                ops = []).
  { rewrite exec_sell. destruct (seller_is_set s).
    - split; [discriminate | intros [H _]; discriminate H].
    - destruct (N.eqb_spec (amount ctx) (2 * p)) as [Ea|Na]; split.
      + intros H. inversion H. repeat split. exact Ea.
      + intros (_ & _ & Hs' & Ho). rewrite Hs', Ho. reflexivity.
      + discriminate.
      + intros (_ & Ea & _). contradiction. }
  split; [exact Iff|].
  intros He b. destruct (proj1 Iff He) as (_ & Ea & _ & Ho).
  unfold invoke. cbn [contract_data balance]. rewrite He, Ho, Ea.
  cbn [total]. destruct (N.leb_spec 0 (b + 2 * p)); [|lia].
  do 3 f_equal. lia.
Qed.

(** X2.  While a seller is set, [sell] fails with "Contract already in use."
    (AlreadyInUse) for every caller, listing and attached amount, the right
    stake included; the instance is left as it was and nothing is
    transferred. *)
Theorem sell_on_listed_rejected (i p : N) (ctx : context) (inst : instance) :
  seller_is_set (contract_data inst) = true ->
  exec (Sell i p) ctx (contract_data inst)
    = Failed "Contract already in use." /\
  error_of_message "Contract already in use." = Some AlreadyInUse /\
  invoke (Sell i p) ctx inst = Failed "Contract already in use." /\
  step (Sell i p) ctx inst = inst /\
  transfers_of (Sell i p) ctx (contract_data inst) = [].
Proof.
  intros Hs.
  assert (E : exec (Sell i p) ctx (contract_data inst) =
              Failed "Contract already in use.").
  { rewrite exec_sell, Hs. reflexivity. }
  destruct (step_failed _ _ _ _ E) as [Hi Hst].
  refine (conj E (conj eq_refl (conj Hi (conj Hst _)))).
  unfold transfers_of. rewrite E. reflexivity.
Qed.

Lemma sell_on_listed_rejected_witness :
  seller_is_set (contract_data scenario_sold) = true /\
  invoke (Sell 2 7) (plain_call bob 14) scenario_sold =
    Failed "Contract already in use.".
Proof.
  refine (conj eq_refl _).
  exact (proj1 (proj2 (proj2
           (sell_on_listed_rejected 2 7 (plain_call bob 14)
              scenario_sold eq_refl)))).
Defined.

(** X3.  [buy] goes through exactly when a seller is set, no buyer is set and
    the attached amount is twice the stored price; it then stores the caller
    as buyer and the buyer flag, leaves the listing and the seller as they
    were, emits nothing, and the instance keeps the stake.  The caller may be
    anyone, the seller included. *)
Theorem buy_succeeds_iff
        (j : N) (ctx : context) (s s' : storage) (ops : list operation) :
  (exec (Buy j) ctx s = Ok (s', ops) <->
   seller_is_set s = true /\
   buyer_is_set s = false /\
   amount ctx = 2 * price (product s) /\
   s' = {| product := product s; seller := seller s; buyer := sender ctx;
           seller_is_set := true; buyer_is_set := true |} /\
   ops = []) /\
  (exec (Buy j) ctx s = Ok (s', ops) ->
   forall b : mutez,
     invoke (Buy j) ctx {| contract_data := s; balance := b |} =
       Ok ({| contract_data := s';
              balance := b + 2 * price (product s) |}, [])).
Proof.
  assert (Iff : exec (Buy j) ctx s = Ok (s', ops) <->
                seller_is_set s = true /\
                buyer_is_set s = false /\
                amount ctx = 2 * price (product s) /\
                s' = {| product := product s; seller := seller s;
                        buyer := sender ctx;
                        seller_is_set := true; buyer_is_set := true |} /\
                ops = []).
  { rewrite exec_buy. destruct (seller_is_set s).
    - destruct (buyer_is_set s).
      + split; [discriminate | intros (_ & H & _); discriminate H].
      + destruct (N.eqb_spec (amount ctx) (2 * price (product s)))
          as [Ea|Na]; split.
        * intros H. inversion H. repeat split. exact Ea.
        * intros (_ & _ & _ & Hs' & Ho). rewrite Hs', Ho. reflexivity.
        * discriminate.
        * intros (_ & _ & Ea & _). contradiction.
    - split; [discriminate | intros [H _]; discriminate H]. }
  split; [exact Iff|].
  intros He b. destruct (proj1 Iff He) as (_ & _ & Ea & _ & Ho).
  unfold invoke. cbn [contract_data balance]. rewrite He, Ho, Ea.
  cbn [total].
  destruct (N.leb_spec 0 (b + 2 * price (product s))); [|lia].
  do 3 f_equal. lia.
Qed.

(** X4.  While a seller is set, [buy] fails with "Contract already in use."
    (AlreadyInUse) once a buyer is set, whatever is attached, and with the
    stake message (InvalidStake) when no buyer is set and the attached
    amount is not twice the stored price; either way the instance is left as
    it was. *)
Theorem buy_rejections (j : N) (ctx : context) (inst : instance) :
  seller_is_set (contract_data inst) = true ->
  (buyer_is_set (contract_data inst) = true ->
   invoke (Buy j) ctx inst = Failed "Contract already in use." /\
   error_of_message "Contract already in use." = Some AlreadyInUse /\
   step (Buy j) ctx inst = inst) /\
  (buyer_is_set (contract_data inst) = false ->
   amount ctx <> 2 * price (product (contract_data inst)) ->
   invoke (Buy j) ctx inst =
     Failed "Stake should be two times the product price." /\
   error_of_message "Stake should be two times the product price."
     = Some InvalidStake /\
   step (Buy j) ctx inst = inst).
Proof.
  intros Hs. split.
  - intros Hb.
    assert (E : exec (Buy j) ctx (contract_data inst) =
                Failed "Contract already in use.").
    { rewrite exec_buy, Hs, Hb. reflexivity. }
    destruct (step_failed _ _ _ _ E) as [Hi Hst].
    exact (conj Hi (conj eq_refl Hst)).
  - intros Hb Ha.
    assert (E : exec (Buy j) ctx (contract_data inst) =
                Failed "Stake should be two times the product price.").
    { rewrite exec_buy, Hs, Hb.
      destruct (N.eqb_spec (amount ctx)
                           (2 * price (product (contract_data inst))));
        [contradiction | reflexivity]. }
    destruct (step_failed _ _ _ _ E) as [Hi Hst].
    exact (conj Hi (conj eq_refl Hst)).
Qed.

Lemma buy_rejections_witness :
  seller_is_set (contract_data scenario_bought) = true /\
  buyer_is_set (contract_data scenario_bought) = true /\
  invoke (Buy 1) (plain_call alice 2000000) scenario_bought =
    Failed "Contract already in use.".
Proof.
  refine (conj eq_refl (conj eq_refl _)).
  exact (proj1 (proj1 (buy_rejections 1
                         (plain_call alice 2000000)
                         scenario_bought eq_refl) eq_refl)).
Defined.

(** ** Resolving too early *)

(** X5.  [received] and [unsell] check the seller flag first, then the buyer
    flag, then the caller: with no seller set both fail with "Seller not yet
    set.", and with a seller but no buyer both fail with "Buyer not yet
    set.", for every caller, the seller included.  The instance is left as
    it was. *)
Theorem resolve_before_staked_rejected
        (id : N) (ctx : context) (inst : instance) :
  (seller_is_set (contract_data inst) = false ->
   invoke (Received id) ctx inst = Failed "Seller not yet set." /\
   invoke (Unsell id) ctx inst = Failed "Seller not yet set." /\
   error_of_message "Seller not yet set." = Some SellerNotSet /\
   step (Received id) ctx inst = inst /\
   step (Unsell id) ctx inst = inst) /\
  (seller_is_set (contract_data inst) = true ->
   buyer_is_set (contract_data inst) = false ->
   invoke (Received id) ctx inst = Failed "Buyer not yet set." /\
   invoke (Unsell id) ctx inst = Failed "Buyer not yet set." /\
   error_of_message "Buyer not yet set." = Some BuyerNotSet /\
   step (Received id) ctx inst = inst /\
   step (Unsell id) ctx inst = inst).
Proof.
  split.
  - intros Hs.
    assert (Er : exec (Received id) ctx (contract_data inst) =
                 Failed "Seller not yet set.").
    { rewrite exec_received, Hs. reflexivity. }
    assert (Eu : exec (Unsell id) ctx (contract_data inst) =
                 Failed "Seller not yet set.").
    { rewrite exec_unsell, Hs. reflexivity. }
    destruct (step_failed _ _ _ _ Er) as [Hir Hsr].
    destruct (step_failed _ _ _ _ Eu) as [Hiu Hsu].
    exact (conj Hir (conj Hiu (conj eq_refl (conj Hsr Hsu)))).
  - intros Hs Hb.
    assert (Er : exec (Received id) ctx (contract_data inst) =
                 Failed "Buyer not yet set.").
    { rewrite exec_received, Hs, Hb. reflexivity. }
    assert (Eu : exec (Unsell id) ctx (contract_data inst) =
                 Failed "Buyer not yet set.").
    { rewrite exec_unsell, Hs, Hb. reflexivity. }
    destruct (step_failed _ _ _ _ Er) as [Hir Hsr].
    destruct (step_failed _ _ _ _ Eu) as [Hiu Hsu].
    exact (conj Hir (conj Hiu (conj eq_refl (conj Hsr Hsu)))).
Qed.

(** X6.  While only the seller has staked, no call pays anything out, and
    the only call that changes the instance is a [buy] carrying exactly
    twice the price: the seller has no way to take the stake back before a
    buyer arrives. *)
Theorem seller_staked_only_buy_proceeds
        (c : call) (ctx : context) (inst : instance) :
  seller_is_set (contract_data inst) = true ->
  buyer_is_set (contract_data inst) = false ->
  transfers_of c ctx (contract_data inst) = [] /\
  (step c ctx inst = inst \/
   exists j : N,
     c = Buy j /\
     amount ctx = 2 * price (product (contract_data inst)) /\
     step c ctx inst =
       {| contract_data := set_buyer_is_set true
                             (set_buyer (sender ctx) (contract_data inst));
          balance := balance inst + amount ctx |}).
Proof.
  destruct inst as [s b]. cbn [contract_data balance]. intros Hs Hb.
  unfold transfers_of, step, invoke. cbn [contract_data balance].
  destruct c as [i p|j|j|j];
    [rewrite exec_sell | rewrite exec_buy | rewrite exec_received
    | rewrite exec_unsell];
    rewrite Hs, ?Hb; try (split; [reflexivity | left; reflexivity]).
  destruct (N.eqb_spec (amount ctx) (2 * price (product s))) as [Ea|Na];
    [|split; [reflexivity | left; reflexivity]].
  split; [reflexivity|]. right. exists j.
  cbn [total]. destruct (N.leb_spec 0 (b + amount ctx)); [|lia].
  refine (conj eq_refl (conj Ea _)).
  unfold set_buyer_is_set, set_buyer.
  cbn [product seller buyer seller_is_set buyer_is_set].
  rewrite Hs. f_equal. lia.
Qed.

Lemma seller_staked_only_buy_proceeds_witness :
  seller_is_set (contract_data scenario_sold) = true /\
  buyer_is_set (contract_data scenario_sold) = false /\
  transfers_of (Unsell 1) (plain_call alice 0)
               (contract_data scenario_sold) = [].
Proof.
  refine (conj eq_refl (conj eq_refl _)).
  exact (proj1 (seller_staked_only_buy_proceeds
                  (Unsell 1) (plain_call alice 0)
                  scenario_sold eq_refl eq_refl)).
Defined.

(** ** The life cycle *)

(** X7.  From a storage that satisfies the state invariant, a call that goes
    through moves along the cycle and nowhere else: [sell] from Empty to
    seller-staked, [buy] from seller-staked to fully staked, [received] and
    [unsell] from fully staked back to Empty. *)
Theorem life_cycle_transitions
        (c : call) (ctx : context) (s s' : storage) (ops : list operation) :
  state_invariant s ->
  exec c ctx s = Ok (s', ops) ->
  match c with
  | Sell _ _ =>
      is_Empty s /\ seller_is_set s' = true /\ buyer_is_set s' = false
  | Buy _ =>
      (seller_is_set s = true /\ buyer_is_set s = false) /\ is_FullyStaked s'
  | Received _ | Unsell _ =>
      is_FullyStaked s /\ is_Empty s'
  end.
Proof.
  intros [Hb Hp].
  destruct c as [i p|j|j|j];
    [rewrite exec_sell | rewrite exec_buy | rewrite exec_received
    | rewrite exec_unsell];
    destruct (seller_is_set s) eqn:Es; destruct (buyer_is_set s) eqn:Eb;
    try discriminate (Hb eq_refl);
    split_ifs; try discriminate;
    intros H; inversion H; subst s';
    unfold is_Empty, is_FullyStaked;
    cbn [product seller_is_set buyer_is_set reset];
    rewrite ?Es, ?Eb; repeat split; auto.
Qed.

Lemma life_cycle_transitions_witness :
  state_invariant init /\
  exec (Sell 1 1000000) (plain_call alice 2000000) init =
    Ok (contract_data scenario_sold, []) /\
  is_Empty init.
Proof.
  refine (conj state_invariant_init (conj eq_refl _)).
  exact (proj1 (life_cycle_transitions
                  (Sell 1 1000000) (plain_call alice 2000000)
                  init (contract_data scenario_sold) []
                  state_invariant_init eq_refl)).
Defined.

(** ** Where the funds can go *)

(** X8.  Whatever the call, the caller and the storage, every transfer the
    contract emits goes to the stored seller or the stored buyer; and either
    nothing is emitted, or the call is a [received] or [unsell] on a fully
    staked storage and the transfers add up to four times the price. *)
Theorem transfers_only_to_parties (c : call) (ctx : context) (s : storage) :
  Forall (fun o : operation =>
            match o with
            | Transfer d _ => d = seller s \/ d = buyer s
            end)
         (transfers_of c ctx s) /\
  (transfers_of c ctx s = [] \/
   (resolving c /\ is_FullyStaked s /\
    total (transfers_of c ctx s) = 4 * price (product s))).
Proof.
  unfold transfers_of, is_FullyStaked.
  destruct c as [i p|j|j|j];
    [rewrite exec_sell | rewrite exec_buy | rewrite exec_received
    | rewrite exec_unsell];
    destruct (seller_is_set s); destruct (buyer_is_set s);
    split_ifs;
    try (split; [constructor | left; reflexivity]).
  - split.
    + constructor; [right; assumption|].
      constructor; [left; reflexivity | constructor].
    + right. cbn [total resolving]. repeat split. lia.
  - split.
    + constructor; [left; assumption|].
      constructor; [right; reflexivity | constructor].
    + right. cbn [total resolving]. repeat split. lia.
Qed.

(** ** Funds beyond the escrow *)

(** X9.  In a reachable instance no call lowers what the balance holds beyond
    the escrow: the surplus stays the same, or grows by the amount attached
    to a [received] or [unsell] that goes through.  Whatever is sent along
    with a resolving call can never be taken out again. *)
Theorem surplus_never_released (c : call) (ctx : context) (i : instance) :
  reachable i ->
  surplus i <= surplus (step c ctx i) /\
  (surplus (step c ctx i) = surplus i \/
   (resolving c /\ surplus (step c ctx i) = surplus i + amount ctx)).
Proof.
  intros Hr. assert (Hcov := reachable_covers_escrow i Hr).
  assert (Hinv := reachable_by_invariant _ _ Hr).
  clear Hr. revert Hinv Hcov. unfold surplus. open_step i.
  intros [Hb _] Hbal.
  destruct c as [j p|j|j|j];
    [rewrite exec_sell | rewrite exec_buy | rewrite exec_received
    | rewrite exec_unsell];
    destruct (seller_is_set s) eqn:Es; destruct (buyer_is_set s) eqn:Eb;
    try discriminate (Hb eq_refl);
    split_ifs;
    cbn [contract_data balance seller_is_set buyer_is_set product price reset
         total resolving] in *;
    rewrite ?Es, ?Eb;
    (split; [lia | first [left; lia | right; split; [exact I | lia]]]).
Qed.

Lemma surplus_never_released_witness :
  reachable scenario_bought /\
  surplus scenario_bought
    <= surplus (step (Received 1) (plain_call bob 5)
                     scenario_bought).
Proof.
  assert (R : reachable scenario_bought).
  { unfold scenario_bought, scenario_sold.
    repeat (apply reach_step; [|exact I]). apply reach_init. }
  split; [exact R|].
  exact (proj1 (surplus_never_released
                  (Received 1) (plain_call bob 5)
                  scenario_bought R)).
Defined.

(** X10.  A reachable instance always holds at least the escrow of its
    flags, and the transfers a call emits never add up to more than that
    escrow: whatever the call, the balance covers them, and no payout is
    ever refused for lack of funds. *)
Theorem reachable_instance_solvent (c : call) (ctx : context) (i : instance) :
  reachable i ->
  escrowed (contract_data i) <= balance i /\
  total (transfers_of c ctx (contract_data i)) <= escrowed (contract_data i) /\
  total (transfers_of c ctx (contract_data i)) <= balance i + amount ctx /\
  invoke c ctx i <> Failed "balance_too_low".
Proof.
  intros Hr. pose proof (reachable_covers_escrow i Hr) as Hcov.
  assert (Ht : total (transfers_of c ctx (contract_data i))
               <= escrowed (contract_data i)).
  { unfold transfers_of, escrowed.
    destruct c as [j p|j|j|j];
      [rewrite exec_sell | rewrite exec_buy | rewrite exec_received
      | rewrite exec_unsell];
      destruct (seller_is_set (contract_data i));
      destruct (buyer_is_set (contract_data i));
      split_ifs; cbn [total]; lia. }
  refine (conj Hcov (conj Ht (conj _ (reachable_never_short c ctx i Hr)))).
  lia.
Qed.

Lemma reachable_instance_solvent_witness :
  reachable scenario_bought /\
  total (transfers_of (Received 1) (plain_call bob 0)
                      (contract_data scenario_bought))
    <= balance scenario_bought + amount (plain_call bob 0).
Proof.
  assert (R : reachable scenario_bought).
  { unfold scenario_bought, scenario_sold.
    repeat (apply reach_step; [|exact I]). apply reach_init. }
  split; [exact R|].
  exact (proj1 (proj2 (proj2 (reachable_instance_solvent
                                (Received 1) (plain_call bob 0)
                                scenario_bought R)))).
Defined.

(** ** Whole cycles *)

(** X11.  A whole cycle ended by [received]: both parties attached twice the
    price, the confirming caller is the one who bought, and [received] pays
    the price to the buyer and three times the price to the seller.  For
    every address, what the cycle pays it less what it attached to the
    three calls is: the price, if it sold; minus the price and minus what
    was attached to [received], if it bought; both together if one account
    did both; nothing otherwise. *)
Theorem received_cycle_settles_sale
        (i b r p : N) (cs cb cr : context) (s0 s1 s2 s3 : storage)
        (o1 o2 o3 : list operation) :
  exec (Sell i p) cs s0 = Ok (s1, o1) ->
  exec (Buy b) cb s1 = Ok (s2, o2) ->
  exec (Received r) cr s2 = Ok (s3, o3) ->
  amount cs = 2 * p /\ amount cb = 2 * p /\
  sender cr = sender cb /\
  o1 = [] /\ o2 = [] /\
  o3 = [Transfer (sender cb) p; Transfer (sender cs) (3 * p)] /\
  is_Empty s3 /\
  (forall a : address,
      (Z.of_N (paid_to a (o1 ++ o2 ++ o3))
       - Z.of_N (attached_by a cs + attached_by a cb + attached_by a cr)
       = (if (sender cs =? a)%string then Z.of_N p else 0)
         - (if (sender cb =? a)%string
            then Z.of_N p + Z.of_N (amount cr) else 0))%Z).
Proof.
  rewrite exec_sell.
  destruct (seller_is_set s0); [discriminate|].
  destruct (N.eqb_spec (amount cs) (2 * p)) as [Ea|]; [|discriminate].
  intros H1. inversion H1; subst s1 o1; clear H1.
  rewrite exec_buy. cbn [seller_is_set buyer_is_set product price].
  destruct (buyer_is_set s0); [discriminate|].
  destruct (N.eqb_spec (amount cb) (2 * p)) as [Eb|]; [|discriminate].
  intros H2. inversion H2; subst s2 o2; clear H2.
  rewrite exec_received.
  cbn [seller_is_set buyer_is_set product price seller buyer].
  destruct (String.eqb_spec (sender cr) (sender cb)) as [Er|]; [|discriminate].
  destruct (unit_entry_point cr (sender cr)); [|discriminate].
  destruct (unit_entry_point cr (sender cs)); [|discriminate].
  intros H3. inversion H3; subst s3 o3; clear H3.
  rewrite Er.
  refine (conj Ea (conj Eb (conj eq_refl (conj eq_refl (conj eq_refl
            (conj eq_refl (conj (reset_is_Empty _) _))))))).
  intros a. unfold attached_by.
  match goal with
  | |- context [paid_to a ?l] =>
      change (paid_to a l)
        with ((if (sender cb =? a)%string then p else 0)
              + ((if (sender cs =? a)%string then 3 * p else 0) + 0))
  end.
  rewrite Er, Ea, Eb.
  destruct (sender cs =? a)%string; destruct (sender cb =? a)%string; lia.
Qed.

Lemma received_cycle_settles_sale_witness :
  exec (Sell 1 1000000) (plain_call alice 2000000) init =
    Ok (contract_data scenario_sold, []) /\
  exec (Buy 1) (plain_call bob 2000000) (contract_data scenario_sold) =
    Ok (contract_data scenario_bought, []) /\
  exec (Received 1) (plain_call bob 0) (contract_data scenario_bought) =
    Ok (contract_data scenario_received,
        [Transfer bob 1000000; Transfer alice 3000000]) /\
  is_Empty (contract_data scenario_received).
Proof.
  refine (conj eq_refl (conj eq_refl (conj eq_refl _))).
  exact (proj1 (proj2 (proj2 (proj2 (proj2 (proj2 (proj2
           (received_cycle_settles_sale
              1 1 1 1000000
              (plain_call alice 2000000)
              (plain_call bob 2000000)
              (plain_call bob 0)
              init (contract_data scenario_sold)
              (contract_data scenario_bought)
              (contract_data scenario_received)
              [] [] [Transfer bob 1000000; Transfer alice 3000000]
              eq_refl eq_refl eq_refl)))))))).
Defined.

Lemma unsell_cycle_returns_stakes_witness :
  exec (Sell 1 1000000) (plain_call alice 2000000) init =
    Ok (contract_data scenario_sold, []) /\
  exec (Buy 1) (plain_call bob 2000000)
       (contract_data scenario_sold) = Ok (contract_data scenario_bought, []) /\
  exec (Unsell 1) (plain_call alice 0)
       (contract_data scenario_bought) =
    Ok (reset (contract_data scenario_bought),
        [Transfer alice 2000000; Transfer bob 2000000]) /\
  [Transfer alice 2000000; Transfer bob 2000000] =
    [Transfer (sender (plain_call alice 2000000))
              (amount (plain_call alice 2000000));
     Transfer (sender (plain_call bob 2000000))
              (amount (plain_call bob 2000000))].
Proof.
  refine (conj eq_refl (conj eq_refl (conj eq_refl _))).
  exact (proj1 (proj2 (proj2
           (unsell_cycle_returns_stakes
              1 1 1 1000000
              (plain_call alice 2000000)
              (plain_call bob 2000000)
              (plain_call alice 0)
              init (contract_data scenario_sold)
              (contract_data scenario_bought)
              (reset (contract_data scenario_bought))
              [] [] [Transfer alice 2000000; Transfer bob 2000000]
              eq_refl eq_refl eq_refl)))).
Defined.

(** ** The test scenario *)

(** X13.  The scenario of [test()], for any item and price and any two
    accounts at which the chain finds a unit entry point, as it does at the
    implicit accounts of the test: on a fresh contract the [sell], the [buy]
    and the buyer's [received] go through, [received] paying the price to
    the buyer and three times the price to the seller, and the seller's
    [unsell] that follows is rejected with "Seller not yet set.", as the
    test's [valid = False] expects.  The calls of the source are the
    instance with Alice, Bob, item 1 and price 1000000. *)
Theorem test_outcomes (u : address -> bool) (a b : address) (i p : N) :
  u a = true ->
  u b = true ->
  fst (run (test_with u a b i p) init) =
    [Ok []; Ok []; Ok [Transfer b p; Transfer a (3 * p)];
     Failed "Seller not yet set."] /\
  map valid (fst (run (test_with u a b i p) init))
    = [true; true; true; false] /\
  snd (run (test_with u a b i p) init) =
    {| product := {| item_id := 0; price := 0 |};
       seller := a; buyer := b;
       seller_is_set := false; buyer_is_set := false |} /\
  test = test_with implicit_only alice bob 1 1000000.
Proof.
  intros Ua Ub.
  assert (E1 : exec (Sell i p)
                    {| sender := a; amount := 2 * p; unit_entry_point := u |}
                    init =
               Ok ({| product := {| item_id := i; price := p |};
                      seller := a; buyer := DEFAULTS.default_buyer;
                      seller_is_set := true; buyer_is_set := false |}, [])).
  { rewrite exec_sell.
    cbn [init seller_is_set amount sender buyer buyer_is_set].
    rewrite N.eqb_refl. reflexivity. }
  assert (E2 : exec (Buy i)
                    {| sender := b; amount := 2 * p; unit_entry_point := u |}
                    {| product := {| item_id := i; price := p |};
                       seller := a; buyer := DEFAULTS.default_buyer;
                       seller_is_set := true; buyer_is_set := false |} =
               Ok ({| product := {| item_id := i; price := p |};
                      seller := a; buyer := b;
                      seller_is_set := true; buyer_is_set := true |}, [])).
  { rewrite exec_buy.
    cbn [seller_is_set buyer_is_set amount sender product price seller].
    rewrite N.eqb_refl. reflexivity. }
  assert (E3 : exec (Received i)
                    {| sender := b; amount := 0; unit_entry_point := u |}
                    {| product := {| item_id := i; price := p |};
                       seller := a; buyer := b;
                       seller_is_set := true; buyer_is_set := true |} =
               Ok ({| product := {| item_id := 0; price := 0 |};
                      seller := a; buyer := b;
                      seller_is_set := false; buyer_is_set := false |},
                   [Transfer b p; Transfer a (3 * p)])).
  { rewrite exec_received.
    cbn [seller_is_set buyer_is_set sender buyer product price seller
         unit_entry_point].
    rewrite String.eqb_refl, Ub, Ua. reflexivity. }
  assert (R : run (test_with u a b i p) init =
              ([Ok []; Ok []; Ok [Transfer b p; Transfer a (3 * p)];
                Failed "Seller not yet set."],
               {| product := {| item_id := 0; price := 0 |};
                  seller := a; buyer := b;
                  seller_is_set := false; buyer_is_set := false |})).
  { cbn [run test_with]. unfold outcome_of, storage_after.
    rewrite E1, E2, E3. reflexivity. }
  rewrite R. repeat split.
Qed.

Lemma test_outcomes_witness :
  implicit_only alice = true /\
  implicit_only bob = true /\
  map valid (fst (run test init)) = [true; true; true; false].
Proof.
  refine (conj eq_refl (conj eq_refl _)).
  exact (proj1 (proj2 (test_outcomes implicit_only alice bob 1 1000000
                         eq_refl eq_refl))).
Defined.

(** ** What cannot change during a sale *)

(** X14.  While a seller is set, a call that leaves the seller set leaves the
    listing and the seller as they were: the price cannot be changed under a
    buyer.  Once the buyer is set as well, a call leaves the storage as it
    was or, if it is a [received] or [unsell], resets it. *)
Theorem listing_fixed_while_listed (c : call) (ctx : context) (s : storage) :
  seller_is_set s = true ->
  (seller_is_set (storage_after c ctx s) = true ->
   product (storage_after c ctx s) = product s /\
   seller (storage_after c ctx s) = seller s) /\
  (buyer_is_set s = true ->
   storage_after c ctx s = s \/
   (resolving c /\ storage_after c ctx s = reset s)).
Proof.
  intros Hs. unfold storage_after.
  destruct c as [i p|j|j|j];
    [rewrite exec_sell | rewrite exec_buy | rewrite exec_received
    | rewrite exec_unsell];
    rewrite Hs; destruct (buyer_is_set s) eqn:Eb; split_ifs;
    cbn [product seller seller_is_set buyer_is_set reset resolving];
    (split;
     [ intros H; first [discriminate H | split; reflexivity]
     | intros H;
       first [discriminate H | left; reflexivity
             | right; split; [exact I | reflexivity]] ]).
Qed.

Lemma listing_fixed_while_listed_witness :
  seller_is_set (contract_data scenario_sold) = true /\
  seller_is_set
    (storage_after (Buy 1) (plain_call bob 2000000)
                   (contract_data scenario_sold)) = true /\
  product
    (storage_after (Buy 1) (plain_call bob 2000000)
                   (contract_data scenario_sold)) =
    product (contract_data scenario_sold).
Proof.
  refine (conj eq_refl (conj eq_refl _)).
  exact (proj1 (proj1 (listing_fixed_while_listed
                         (Buy 1) (plain_call bob 2000000)
                         (contract_data scenario_sold) eq_refl) eq_refl)).
Defined.

(** ** The failures of each entry point *)

(** X15.  An entry point fails only with the messages of its own checks:
    [sell] with the in-use or the stake message, [buy] with the product,
    in-use or stake message, [received] and [unsell] with the seller, buyer
    or wrong-caller message.  Beyond these, [received] and [unsell] fail in
    one more way only, inside [sp.send] once all their checks have passed:
    when no unit entry point is found at the buyer or at the seller. *)
Theorem failure_messages
        (c : call) (ctx : context) (s : storage) (msg : string) :
  exec c ctx s = Failed msg ->
  match c with
  | Sell _ _ =>
      msg = "Contract already in use." \/
      msg = "Stake should be two times the product price."
  | Buy _ =>
      msg = "Product not yet set." \/
      msg = "Contract already in use." \/
      msg = "Stake should be two times the product price."
  | Received _ =>
      msg = "Seller not yet set." \/
      msg = "Buyer not yet set." \/
      msg = "You are not the buyer." \/
      (msg = open_some_failed /\ is_FullyStaked s /\
       sender ctx = buyer s /\
       (unit_entry_point ctx (buyer s) = false \/
        unit_entry_point ctx (seller s) = false))
  | Unsell _ =>
      msg = "Seller not yet set." \/
      msg = "Buyer not yet set." \/
      msg = "You are not the seller." \/
      (msg = open_some_failed /\ is_FullyStaked s /\
       sender ctx = seller s /\
       (unit_entry_point ctx (seller s) = false \/
        unit_entry_point ctx (buyer s) = false))
  end /\
  (msg = open_some_failed \/ exists e : error, error_of_message msg = Some e).
Proof.
  unfold is_FullyStaked.
  destruct c as [i p|j|j|j];
    [rewrite exec_sell | rewrite exec_buy | rewrite exec_received
    | rewrite exec_unsell];
    destruct (seller_is_set s); destruct (buyer_is_set s);
    split_ifs; try discriminate;
    intros H; inversion H; subst msg;
    (split;
     [ try tauto
     | first [left; reflexivity | right; eexists; reflexivity] ]).
  all: do 3 right; repeat split; try assumption;
    match goal with
    | E : sender _ = _ |- _ => rewrite <- E
    end; tauto.
Qed.

Lemma failure_messages_witness :
  exec (Unsell 1) (plain_call alice 0) (contract_data scenario_shop_buys)
    = Failed open_some_failed /\
  sender (plain_call alice 0) = seller (contract_data scenario_shop_buys) /\
  (unit_entry_point (plain_call alice 0)
                    (seller (contract_data scenario_shop_buys)) = false \/
   unit_entry_point (plain_call alice 0)
                    (buyer (contract_data scenario_shop_buys)) = false).
Proof.
  refine (conj eq_refl (conj eq_refl _)).
  destruct (proj1 (failure_messages
                     (Unsell 1) (plain_call alice 0)
                     (contract_data scenario_shop_buys) open_some_failed
                     eq_refl))
    as [H|[H|[H|(_ & _ & _ & H)]]];
    [discriminate H | discriminate H | discriminate H | exact H].
Defined.

(** ** Identities of unoccupied slots *)

(** X17.  The identity stored in a slot whose flag is unset is never read:
    replacing it by any address changes the outcome of no sequence of calls.
    The placeholder addresses of a fresh contract therefore carry no
    meaning, and an account that happens to have such an address is treated
    like any other. *)
Theorem unset_identities_never_read
        (a : address) (s : storage) (tr : list (call * context)) :
  (seller_is_set s = false ->
   fst (run tr (set_seller a s)) = fst (run tr s)) /\
  (buyer_is_set s = false ->
   fst (run tr (set_buyer a s)) = fst (run tr s)).
Proof.
  split; intros H; apply same_cycle_state_run;
    unfold same_cycle_state, set_seller, set_buyer;
    cbn [product seller buyer seller_is_set buyer_is_set];
    rewrite H; repeat split; intros; discriminate.
Qed.

(** ** Who can resolve *)

(** X18.  [received] goes through exactly when both flags are set, the
    caller is the stored buyer and a unit entry point is found at the buyer
    and at the seller; [unsell] exactly when both flags are set, the caller
    is the stored seller and a unit entry point is found at both.  The
    attached amount plays no part.  These are the only calls that pay out,
    so a payout is always triggered by the party whose role allows it. *)
Theorem resolving_succeeds_iff
        (j : N) (ctx : context) (s s' : storage) (ops : list operation) :
  (exec (Received j) ctx s = Ok (s', ops) <->
   seller_is_set s = true /\ buyer_is_set s = true /\
   sender ctx = buyer s /\
   unit_entry_point ctx (buyer s) = true /\
   unit_entry_point ctx (seller s) = true /\
   s' = reset s /\
   ops = [Transfer (buyer s) (price (product s));
          Transfer (seller s) (3 * price (product s))]) /\
  (exec (Unsell j) ctx s = Ok (s', ops) <->
   seller_is_set s = true /\ buyer_is_set s = true /\
   sender ctx = seller s /\
   unit_entry_point ctx (seller s) = true /\
   unit_entry_point ctx (buyer s) = true /\
   s' = reset s /\
   ops = [Transfer (seller s) (2 * price (product s));
          Transfer (buyer s) (2 * price (product s))]) /\
  (forall c : call,
      exec c ctx s = Ok (s', ops) -> ops <> [] ->
      (exists k : N, c = Received k /\ sender ctx = buyer s) \/
      (exists k : N, c = Unsell k /\ sender ctx = seller s)).
Proof.
  assert (Ir : exec (Received j) ctx s = Ok (s', ops) <->
               seller_is_set s = true /\ buyer_is_set s = true /\
               sender ctx = buyer s /\
               unit_entry_point ctx (buyer s) = true /\
               unit_entry_point ctx (seller s) = true /\
               s' = reset s /\
               ops = [Transfer (buyer s) (price (product s));
                      Transfer (seller s) (3 * price (product s))]).
  { rewrite exec_received.
    destruct (seller_is_set s);
      [|split; [discriminate | intros [H _]; discriminate H]].
    destruct (buyer_is_set s);
      [|split; [discriminate | intros (_ & H & _); discriminate H]].
    destruct (String.eqb_spec (sender ctx) (buyer s)) as [E|N];
      [|split; [discriminate | intros (_ & _ & E & _); contradiction]].
    rewrite E.
    destruct (unit_entry_point ctx (buyer s));
      [|split; [discriminate | intros (_ & _ & _ & H & _); discriminate H]].
    destruct (unit_entry_point ctx (seller s));
      [|split; [discriminate
               | intros (_ & _ & _ & _ & H & _); discriminate H]].
    split.
    - intros H. inversion H. repeat split.
    - intros (_ & _ & _ & _ & _ & Hs' & Ho). rewrite Hs', Ho. reflexivity. }
  assert (Iu : exec (Unsell j) ctx s = Ok (s', ops) <->
               seller_is_set s = true /\ buyer_is_set s = true /\
               sender ctx = seller s /\
               unit_entry_point ctx (seller s) = true /\
               unit_entry_point ctx (buyer s) = true /\
               s' = reset s /\
               ops = [Transfer (seller s) (2 * price (product s));
                      Transfer (buyer s) (2 * price (product s))]).
  { rewrite exec_unsell.
    destruct (seller_is_set s);
      [|split; [discriminate | intros [H _]; discriminate H]].
    destruct (buyer_is_set s);
      [|split; [discriminate | intros (_ & H & _); discriminate H]].
    destruct (String.eqb_spec (sender ctx) (seller s)) as [E|N];
      [|split; [discriminate | intros (_ & _ & E & _); contradiction]].
    rewrite E.
    destruct (unit_entry_point ctx (seller s));
      [|split; [discriminate | intros (_ & _ & _ & H & _); discriminate H]].
    destruct (unit_entry_point ctx (buyer s));
      [|split; [discriminate
               | intros (_ & _ & _ & _ & H & _); discriminate H]].
    split.
    - intros H. inversion H. repeat split.
    - intros (_ & _ & _ & _ & _ & Hs' & Ho). rewrite Hs', Ho. reflexivity. }
  refine (conj Ir (conj Iu _)).
  intros c He Hn. destruct c as [i p|k|k|k].
  - exfalso. revert He. rewrite exec_sell.
    destruct (seller_is_set s); [discriminate|].
    destruct (amount ctx =? 2 * p); [|discriminate].
    intros H. inversion H. subst ops. apply Hn. reflexivity.
  - exfalso. revert He. rewrite exec_buy.
    destruct (seller_is_set s); [|discriminate].
    destruct (buyer_is_set s); [discriminate|].
    destruct (amount ctx =? 2 * price (product s)); [|discriminate].
    intros H. inversion H. subst ops. apply Hn. reflexivity.
  - left. exists k. split; [reflexivity|]. revert He. rewrite exec_received.
    destruct (seller_is_set s); [|discriminate].
    destruct (buyer_is_set s); [|discriminate].
    destruct (String.eqb_spec (sender ctx) (buyer s)) as [E|N];
      [intros _; exact E | discriminate].
  - right. exists k. split; [reflexivity|]. revert He. rewrite exec_unsell.
    destruct (seller_is_set s); [|discriminate].
    destruct (buyer_is_set s); [|discriminate].
    destruct (String.eqb_spec (sender ctx) (seller s)) as [E|N];
      [intros _; exact E | discriminate].
Qed.

(** ** A party that cannot be paid *)

(** X19.  On a fully staked storage, when no unit entry point is found at
    the seller or at the buyer, every call of every entry point by every
    caller is rejected: nothing is paid and nothing changes.  Both
    [received] and [unsell] pay both parties, so a single party that cannot
    take a plain transfer keeps the whole escrow in the contract. *)
Theorem escrow_stuck_without_unit_entry_point
        (c : call) (ctx : context) (i : instance) :
  is_FullyStaked (contract_data i) ->
  unit_entry_point ctx (seller (contract_data i)) = false \/
  unit_entry_point ctx (buyer (contract_data i)) = false ->
  valid (exec c ctx (contract_data i)) = false /\
  transfers_of c ctx (contract_data i) = [] /\
  step c ctx i = i.
Proof.
  intros [Hs Hb] Hu.
  assert (E : exists msg, exec c ctx (contract_data i) = Failed msg).
  { destruct c as [j p|j|j|j];
      [rewrite exec_sell | rewrite exec_buy | rewrite exec_received
      | rewrite exec_unsell];
      rewrite Hs, ?Hb;
      try (eexists; reflexivity).
    - destruct (String.eqb_spec (sender ctx) (buyer (contract_data i)))
        as [Ec|]; [|eexists; reflexivity].
      rewrite Ec.
      destruct (unit_entry_point ctx (buyer (contract_data i)));
        [|eexists; reflexivity].
      destruct (unit_entry_point ctx (seller (contract_data i)));
        [|eexists; reflexivity].
      destruct Hu as [Hu|Hu]; discriminate Hu.
    - destruct (String.eqb_spec (sender ctx) (seller (contract_data i)))
        as [Ec|]; [|eexists; reflexivity].
      rewrite Ec.
      destruct (unit_entry_point ctx (seller (contract_data i)));
        [|eexists; reflexivity].
      destruct (unit_entry_point ctx (buyer (contract_data i)));
        [|eexists; reflexivity].
      destruct Hu as [Hu|Hu]; discriminate Hu. }
  destruct E as [msg E].
  destruct (step_failed _ _ _ _ E) as [_ Hst].
  unfold transfers_of. rewrite E.
  refine (conj eq_refl (conj eq_refl Hst)).
Qed.

Lemma escrow_stuck_without_unit_entry_point_witness :
  is_FullyStaked (contract_data scenario_shop_sells) /\
  unit_entry_point (plain_call shop 0)
                   (seller (contract_data scenario_shop_sells)) = false /\
  step (Unsell 1) (plain_call shop 0) scenario_shop_sells
    = scenario_shop_sells.
Proof.
  assert (F : is_FullyStaked (contract_data scenario_shop_sells)).
  { split; reflexivity. }
  refine (conj F (conj eq_refl _)).
  exact (proj2 (proj2 (escrow_stuck_without_unit_entry_point
                         (Unsell 1) (plain_call shop 0)
                         scenario_shop_sells F (or_introl eq_refl)))).
Defined.
